(** * obsidian-hugo-post: the naming function, the two prompts, the
      create-new-post command and the settings record of [src/main.ts]

    The plugin is TypeScript running inside the Obsidian host.  The file
    embeds the code of [src/main.ts] shallowly:

    - JavaScript strings are [string]s (a character stands for a code unit);
    - the numbers read from a [Date] are integers or [NaN];
    - plain objects used as records ([DEFAULT_SETTINGS], the data blob of the
      host) are [gmap string _] of their own properties; the target of
      [Object.assign] also records whether it still inherits the accessor
      [__proto__] of [Object.prototype];
    - the asynchronous command callback is a program in a small monad that
      logs every request made to the host and can return, throw or stay
      suspended on a promise that is never resolved. *)

From stdpp Require Import base strings list gmap fin_maps pretty.
From Stdlib Require Import Ascii ZArith Lia.

Local Open Scope string_scope.
Local Open Scope list_scope.

(** ** JavaScript built-ins used by the source *)

Module JS.

(** The values the [Date] getters return: an integral number, or [NaN] for
    an invalid date. *)
Inductive number : Type :=
| NaN
| Int (z : Z).

(** [a + b] on such numbers. *)
Definition add (a b : number) : number :=
  match a, b with
  | Int x, Int y => Int (x + y)
  | _, _ => NaN
  end.

(** [Number.prototype.toString]: decimal digits with a leading minus sign
    (the form JavaScript uses for every integer below 10^21 in absolute
    value, which covers all values a [Date] getter can return). *)
Definition toString (n : number) : string :=
  match n with
  | NaN => "NaN"
  | Int z => pretty z
  end.

(** The first [n] characters of [filler] repeated for ever; [rest] is what
    is left of the copy being consumed. *)
Fixpoint truncatedFiller (n : nat) (rest filler : string) : string :=
  match n with
  | O => ""
  | S n' =>
      match rest with
      | String c r => String c (truncatedFiller n' r filler)
      | EmptyString =>
          match filler with
          | String c r => String c (truncatedFiller n' r filler)
          | EmptyString => ""
          end
      end
  end.

(** [String.prototype.padStart(targetLength, padString)]. *)
Definition padStart (s : string) (targetLength : nat) (padString : string)
  : string :=
  let len := String.length s in
  if (targetLength <=? len)%nat then s
  else if String.eqb padString "" then s
  else truncatedFiller (targetLength - len) padString padString +:+ s.

(** [s.startsWith(p)] at position 0, the test [includes] repeats at every
    position. *)
Fixpoint startsWith (s p : string) : bool :=
  match p, s with
  | EmptyString, _ => true
  | String _ _, EmptyString => false
  | String c p', String d s' => Ascii.eqb c d && startsWith s' p'
  end.

(** [String.prototype.includes(searchString)]. *)
Fixpoint includes (s searchString : string) : bool :=
  startsWith s searchString
  || match s with
     | EmptyString => false
     | String _ s' => includes s' searchString
     end.

(** A promise that is only ever resolved (the source never rejects one):
    the first [resolve] settles it, later ones are ignored. *)
Inductive promise (A : Type) : Type :=
| Pending
| Resolved (v : A).
Arguments Pending {A}.
Arguments Resolved {A} v.

Definition resolve {A} (v : A) (p : promise A) : promise A :=
  match p with
  | Pending => Resolved v
  | Resolved w => Resolved w
  end.

(** The calendar fields of a [Date], as its getters return them in local
    time.  [getMonth] counts from 0. *)
Record Date : Type := mkDate {
  getFullYear : number;
  getMonth : number;
  getDate : number;
  getHours : number;
  getMinutes : number;
  getSeconds : number;
  getMilliseconds : number
}.

(** The invalid date: every getter returns [NaN]. *)
Definition invalidDate : Date := mkDate NaN NaN NaN NaN NaN NaN NaN.

Definition inRange (lo hi : Z) (n : number) : bool :=
  match n with
  | NaN => false
  | Int z => (lo <=? z)%Z && (z <=? hi)%Z
  end.

(** A calendar instant: every field is a number in the range ECMAScript
    gives it. *)
Definition isInstant (d : Date) : bool :=
  inRange (-271821) 275760 (getFullYear d)
  && inRange 0 11 (getMonth d)
  && inRange 1 31 (getDate d)
  && inRange 0 23 (getHours d)
  && inRange 0 59 (getMinutes d)
  && inRange 0 59 (getSeconds d)
  && inRange 0 999 (getMilliseconds d).

End JS.

(** ** [src/main.ts]: the post kinds and the naming function *)

(** [enum PostKind]: a closed set of string-valued tags. *)
Inductive PostKind : Type :=
| BlogPost
| Note
| Photos.

Definition PostKind_value (k : PostKind) : string :=
  match k with
  | BlogPost => "blogpost"
  | Note => "note"
  | Photos => "photos"
  end.

(** [Object.values(PostKind)]: the values in declaration order. *)
Definition PostKind_values : list string :=
  PostKind_value <$> [BlogPost; Note; Photos].

(** The local function [pad] of [formatDatePrefix]. *)
Definition pad (value : JS.number) : string :=
  JS.padStart (JS.toString value) 2 "0".

Definition formatDatePrefix (date : JS.Date) : string :=
  let year := JS.getFullYear date in
  let month := pad (JS.add (JS.getMonth date) (JS.Int 1)) in
  let day := pad (JS.getDate date) in
  let hours := pad (JS.getHours date) in
  let minutes := pad (JS.getMinutes date) in
  JS.toString year +:+ "-" +:+ month +:+ "-" +:+ day +:+ "-" +:+ hours
    +:+ "-" +:+ minutes.

(** ** The Choice Prompt ([PostKindChooserModal]) and the Text Prompt
       ([PostTitleModal]) *)

(** A modal reports its result by calling the [onSubmit] callback it was
    constructed with; the state of a modal records those calls, oldest
    first.  The host only delivers user events to a modal that is on screen:
    after [close()] its controls are gone. *)

(** What the user can do with the open [PostTitleModal]. *)
Inductive TitleEvent : Type :=
| Change (value : string)   (* edits the text field: [onChange(value)] *)
| Click                     (* presses the Submit button: [onClick()] *)
| DismissTitle.             (* leaves the modal without submitting *)

Record PostTitleModal : Type := mkTitleModal {
  name : string;                  (* [let name = ""] of the constructor *)
  titleOpen : bool;
  titleSubmitted : list string    (* the calls [onSubmit(name)] *)
}.

(** The modal as the constructor and [open()] leave it. *)
Definition PostTitleModal_new : PostTitleModal := mkTitleModal "" true [].

Definition PostTitleModal_handle (m : PostTitleModal) (ev : TitleEvent)
  : PostTitleModal :=
  if titleOpen m then
    match ev with
    | Change value => mkTitleModal value true (titleSubmitted m)
    | Click => mkTitleModal (name m) false (titleSubmitted m ++ [name m])
    | DismissTitle => mkTitleModal (name m) false (titleSubmitted m)
    end
  else m.

Definition PostTitleModal_run (evs : list TitleEvent) : PostTitleModal :=
  foldl PostTitleModal_handle PostTitleModal_new evs.

(** The promise the command wraps around a modal: [onSubmit] is
    [resolve]. *)
Definition promise_of_calls (calls : list string) : JS.promise string :=
  foldl (fun p v => JS.resolve v p) JS.Pending calls.

(** What the user can do with the open [PostKindChooserModal]. *)
Inductive ChooserEvent : Type :=
| Input (query : string)    (* types in the search field *)
| Select (index : nat)      (* picks the suggestion shown at [index] *)
| DismissChooser.

Record PostKindChooserModal : Type := mkChooser {
  shown : list string;            (* the suggestions on screen *)
  chooserOpen : bool;
  chooserSubmitted : list string  (* the calls [onSubmit(postKind)] *)
}.

(** A lowering of the ASCII letters, used to run the definitions of the
    section below on concrete inputs. *)
Definition lowerAscii (c : Ascii.ascii) : Ascii.ascii :=
  let n := Ascii.nat_of_ascii c in
  if (65 <=? n)%nat && (n <=? 90)%nat then Ascii.ascii_of_nat (n + 32) else c.

Fixpoint lowerAsciiString (s : string) : string :=
  match s with
  | EmptyString => EmptyString
  | String c s' => String (lowerAscii c) (lowerAsciiString s')
  end.

(** ** The command and the settings *)

(** The requests the plugin makes to the host while the command runs. *)
Inductive ModalKind : Type := KindChooser | TitlePrompt.

Record TFolder : Type := mkFolder { folder_path : string }.
Record TFile : Type := mkFile { file_path : string }.

Inductive HostCall : Type :=
| ModalOpen (m : ModalKind)          (* [new ...Modal(...).open()] *)
| NoticeShown (message : string)     (* [new Notice(message)] *)
| CreateFolder (path : string)       (* [vault.createFolder(path)] *)
| Create (path data : string)        (* [vault.create(path, data)] *)
| GetLeaf (newLeaf : bool)           (* [workspace.getLeaf(newLeaf)] *)
| OpenFile (file : TFile).           (* [leaf.openFile(file)] *)

(** How an asynchronous function ends.  A thrown value is represented by its
    textual description, the text a notice built from it shows. *)
Inductive Outcome (A : Type) : Type :=
| Returned (a : A)
| Threw (e : string)
| Suspended.       (* awaits a promise that is never resolved *)
Arguments Returned {A} a.
Arguments Threw {A} e.
Arguments Suspended {A}.

(** A computation: the requests it made, in order, and how it ended. *)
Definition Async (A : Type) : Type := list HostCall * Outcome A.

Global Instance Async_ret : MRet Async := fun A a => ([], Returned a).

Global Instance Async_bind : MBind Async := fun A B f m =>
  match m with
  | (l, Returned a) => let '(l', o) := f a in (l ++ l', o)
  | (l, Threw e) => (l, Threw e)
  | (l, Suspended) => (l, Suspended)
  end.

Definition request (c : HostCall) : Async unit := ([c], Returned tt).

(** A request the host answers with a value or with a failure. *)
Definition requestResult {A} (c : HostCall) (r : string + A) : Async A :=
  match r with
  | inl e => ([c], Threw e)
  | inr a => ([c], Returned a)
  end.

(** [await p]. *)
Definition await {A} (p : JS.promise A) : Async A :=
  match p with
  | JS.Resolved v => ([], Returned v)
  | JS.Pending => ([], Suspended)
  end.

(** [try { body } catch (e) { handler(e) }]. *)
Definition tryCatch {A} (body : Async A) (handler : string -> Async A)
  : Async A :=
  match body with
  | (l, Threw e) => let '(l', o) := handler e in (l ++ l', o)
  | other => other
  end.

(** What the environment of one run of the command does: the two users'
    actions, the clock, and the answers of the vault and of the leaf. *)
Record Host : Type := mkHost {
  chooserUser : list ChooserEvent;
  titleUser : list TitleEvent;
  now : JS.Date;                                        (* [new Date()] *)
  vault_createFolder : string -> string + TFolder;
  vault_create : string -> string -> string + TFile;
  leaf_openFile : TFile -> string + unit
}.

(** Lines 67 and 69 of the callback, as functions of the values in scope. *)
Definition kindPrefix (postKind : string) : string :=
  if String.eqb postKind (PostKind_value Note) then "note-" else "".

Definition folderName (postKind : string) (date : JS.Date) (postTitle : string)
  : string :=
  let datePrefix := formatDatePrefix date in
  "content/posts/" +:+ kindPrefix postKind +:+ datePrefix +:+ "-"
    +:+ postTitle.

(** A value of the settings data: what JSON can hold in a flat record. *)
Inductive value : Type :=
| VNull
| VBool (b : bool)
| VNumber (z : Z)
| VString (s : string).

Definition DEFAULT_SETTINGS : gmap string value :=
  {[ "mySetting" := VString "test" ]}.

(** A plain object as [Object.assign] sees its target: the own properties,
    and whether the prototype has been set to [null]; otherwise it is
    [Object.prototype], whose accessor [__proto__] receives the stores to
    that key. *)
Record object : Type := mkObject {
  own : gmap string value;
  nullPrototype : bool
}.

(** [target[key] = v], the store [Object.assign] performs for each own key
    of a source.  On an object that inherits from [Object.prototype] a
    store to "__proto__" calls the inherited setter: [null] becomes the
    prototype, a primitive is ignored, and in neither case is an own
    property created.  Every other store creates or updates an own
    property. *)
Definition object_set (key : string) (v : value) (target : object)
  : object :=
  if String.eqb key "__proto__" && negb (nullPrototype target) then
    match v with
    | VNull => mkObject (own target) true
    | _ => target
    end
  else mkObject (<[ key := v ]> (own target)) (nullPrototype target).

(** [Object.assign(target, ...sources)] for a target that inherits from
    [Object.prototype], as the literal [{}] does: the sources are visited
    from left to right, a [null] source is skipped, and every own key of an
    object is stored into the target.  The result is given by its own
    properties. *)
Definition Object_assign (target : gmap string value)
    (sources : list (option (gmap string value))) : gmap string value :=
  own (foldl (fun acc source =>
                match source with
                | None => acc
                | Some o => map_fold object_set acc o
                end) (mkObject target false) sources).

(** The plugin and the host's data file ([None]: nothing saved, [loadData]
    answers [null]). *)
Record MyPlugin : Type := mkPlugin { settings : gmap string value }.

Definition loadData (disk : option (gmap string value))
  : option (gmap string value) := disk.

Definition saveData (data : gmap string value)
    (disk : option (gmap string value)) : option (gmap string value) :=
  Some data.

Definition loadSettings (this : MyPlugin) (disk : option (gmap string value))
  : MyPlugin :=
  mkPlugin (Object_assign ∅ [Some DEFAULT_SETTINGS; loadData disk]).

Definition saveSettings (this : MyPlugin) (disk : option (gmap string value))
  : option (gmap string value) :=
  saveData (settings this) disk.

Section Plugin.

(** [String.prototype.toLowerCase] of the JavaScript runtime. *)
Variable toLowerCase : string -> string.

(** The filter of [getSuggestions], over any list of candidates. *)
Definition filterCandidates (candidates : list string) (query : string)
  : list string :=
  List.filter
    (fun postKind =>
       JS.includes (toLowerCase postKind) (toLowerCase query))
    candidates.

Definition getSuggestions (query : string) : list string :=
  filterCandidates PostKind_values query.

(** The chooser as [open()] leaves it: the suggestions for the empty
    query are on screen. *)
Definition PostKindChooserModal_new : PostKindChooserModal :=
  mkChooser (getSuggestions "") true [].

Definition PostKindChooserModal_handle (m : PostKindChooserModal)
    (ev : ChooserEvent) : PostKindChooserModal :=
  if chooserOpen m then
    match ev with
    | Input query => mkChooser (getSuggestions query) true (chooserSubmitted m)
    | Select index =>
        match shown m !! index with
        | Some postKind =>   (* [onChooseSuggestion(postKind, evt)] *)
            mkChooser (shown m) false (chooserSubmitted m ++ [postKind])
        | None => m
        end
    | DismissChooser => mkChooser (shown m) false (chooserSubmitted m)
    end
  else m.

Definition PostKindChooserModal_run (evs : list ChooserEvent)
  : PostKindChooserModal :=
  foldl PostKindChooserModal_handle PostKindChooserModal_new evs.

(** The promises of lines 48-54 and 57-63. *)
Definition postKindPromise (host : Host) : JS.promise string :=
  promise_of_calls
    (chooserSubmitted (PostKindChooserModal_run (chooserUser host))).

Definition postTitlePromise (host : Host) : JS.promise string :=
  promise_of_calls (titleSubmitted (PostTitleModal_run (titleUser host))).

(** The callback of the command [create-new-post]. *)
Definition create_new_post (host : Host) : Async unit :=
  postKind ← (request (ModalOpen KindChooser);; await (postKindPromise host));
  request (NoticeShown postKind);;
  postTitle ← (request (ModalOpen TitlePrompt);;
               await (postTitlePromise host));
  request (NoticeShown postTitle);;
  tryCatch
    (let folderName := folderName postKind (now host) postTitle in
     folder ← requestResult (CreateFolder folderName)
                (vault_createFolder host folderName);
     request (NoticeShown (folder_path folder));;
     let path := folder_path folder +:+ "/index.md" in
     file ← requestResult (Create path "") (vault_create host path "");
     request (GetLeaf false);;
     requestResult (OpenFile file) (leaf_openFile host file))
    (fun e => request (NoticeShown e)).

End Plugin.

(** ** Vocabulary of the specification *)

(** The decimal digit of a number below ten. *)
Definition digitChar (n : Z) : Ascii.ascii :=
  Ascii.ascii_of_nat (48 + Z.to_nat n).

(** A number below one hundred written on exactly two decimal digits, the
    tens digit being 0 when there are no tens. *)
Definition twoDigits (n : Z) : string :=
  String (digitChar (n `div` 10)) (String (digitChar (n `mod` 10)) "").

(** [q] occurs in [s] as a substring. *)
Definition isSubstring (q s : string) : Prop :=
  exists before after, s = before +:+ q +:+ after.

(** The test of the filter of [getSuggestions], as a proposition. *)
Definition matchesQuery (toLowerCase : string -> string)
    (query postKind : string) : Prop :=
  isSubstring (toLowerCase query) (toLowerCase postKind).

(** The requests of a run in which both prompts resolve, up to the notice
    that follows the title prompt. *)
Definition promptCalls (postKind postTitle : string) : list HostCall :=
  [ModalOpen KindChooser; NoticeShown postKind;
   ModalOpen TitlePrompt; NoticeShown postTitle].

(** The value of the text field after the user's events: the last value
    typed, the empty string when nothing was typed. *)
Definition lastTyped (evs : list TitleEvent) : string :=
  foldl (fun buffer ev =>
           match ev with
           | Change value => value
           | _ => buffer
           end) "" evs.

Definition isChange (ev : TitleEvent) : bool :=
  match ev with
  | Change _ => true
  | _ => false
  end.

(** Requests to the storage and navigation collaborators. *)
Definition isStorageOrNavigation (c : HostCall) : bool :=
  match c with
  | CreateFolder _ | Create _ _ | GetLeaf _ | OpenFile _ => true
  | ModalOpen _ | NoticeShown _ => false
  end.

Definition isNotice (c : HostCall) : bool :=
  match c with
  | NoticeShown _ => true
  | _ => false
  end.

(** The segments of a path: the pieces between its separators. *)
Fixpoint pathSegments (s : string) : list string :=
  match s with
  | EmptyString => [""]
  | String c s' =>
      if Ascii.eqb c "/"%char then "" :: pathSegments s'
      else match pathSegments s' with
           | seg :: segs => String c seg :: segs
           | [] => [String c ""]
           end
  end.

Fixpoint countChar (c : Ascii.ascii) (s : string) : nat :=
  match s with
  | EmptyString => 0
  | String d s' => (if Ascii.eqb d c then 1 else 0) + countChar c s'
  end.

(** ** Sample inputs *)

Definition date_2024_03_05_09_07 : JS.Date :=
  JS.mkDate (JS.Int 2024) (JS.Int 2) (JS.Int 5) (JS.Int 9) (JS.Int 7)
            (JS.Int 0) (JS.Int 0).

(** The same minute, read 41.250 seconds later. *)
Definition date_2024_03_05_09_07_late : JS.Date :=
  JS.mkDate (JS.Int 2024) (JS.Int 2) (JS.Int 5) (JS.Int 9) (JS.Int 7)
            (JS.Int 41) (JS.Int 250).

(** A host whose user picks "note" after typing "NO", types "hello" and
    submits, and whose vault and leaf accept every request. *)
Definition host_ok : Host :=
  mkHost [Input "NO"; Select 0] [Change "h"; Change "hello"; Click]
         date_2024_03_05_09_07
         (fun path => inr (mkFolder path))
         (fun path _ => inr (mkFile path))
         (fun _ => inr tt).

(** The same user; the vault refuses the folder. *)
Definition host_folder_exists : Host :=
  mkHost [Input "NO"; Select 0] [Change "h"; Change "hello"; Click]
         date_2024_03_05_09_07
         (fun _ => inl "Error: Folder already exists.")
         (fun path _ => inr (mkFile path))
         (fun _ => inr tt).

(** ** The settings tab and the conditional command *)

(** [SampleSettingTab.display]: the text field shows
    [this.plugin.settings.mySetting] ([undefined] when the key is absent). *)
Definition SampleSettingTab_shown (plugin : MyPlugin) : option value :=
  settings plugin !! "mySetting".

(** The [onChange] handler of that field: it stores the value in the
    plugin's settings and saves them. *)
Definition SampleSettingTab_onChange (text : string) (plugin : MyPlugin)
    (disk : option (gmap string value))
  : MyPlugin * option (gmap string value) :=
  let plugin' :=
    mkPlugin (<[ "mySetting" := VString text ]> (settings plugin)) in
  (plugin', saveSettings plugin' disk).

(** A session with the settings tab: the handler runs once per edit. *)
Definition SampleSettingTab_edits (texts : list string) (plugin : MyPlugin)
    (disk : option (gmap string value))
  : MyPlugin * option (gmap string value) :=
  foldl (fun st text => SampleSettingTab_onChange text st.1 st.2)
        (plugin, disk) texts.

(** The [checkCallback] of the command [open-sample-modal-complex].
    [markdownView] is the answer of [getActiveViewOfType(MarkdownView)]
    ([None] for [null]).  The result pairs whether
    [new SampleModal(this.app).open()] ran with the value returned
    ([None] for [undefined]). *)
Definition open_sample_modal_complex {View : Type}
    (markdownView : option View) (checking : bool) : bool * option bool :=
  match markdownView with
  | Some _ =>
      let opened := if negb checking then true else false in
      (opened, Some true)
  | None => (false, None)
  end.

(** ** [formatDatePrefix], call by call *)

(** A second embedding of [formatDatePrefix] that keeps in view what a
    JavaScript function can do besides returning a value: each step
    receives the [Date] object it was passed and hands it on, possibly
    changed, may make requests to the host, and may throw. *)
Definition Step (A : Type) : Type :=
  JS.Date -> list HostCall * Outcome A * JS.Date.

Global Instance Step_ret : MRet Step := fun A a date => ([], Returned a, date).

Global Instance Step_bind : MBind Step := fun A B f m date =>
  match m date with
  | (l, Returned a, date') =>
      let '(l', o, date'') := f a date' in (l ++ l', o, date'')
  | (l, Threw e, date') => (l, Threw e, date')
  | (l, Suspended, date') => (l, Suspended, date')
  end.

(** [date.getFullYear()] and the other getters: they read a field of the
    object and leave it as it is. *)
Definition callGetter (getter : JS.Date -> JS.number) : Step JS.number :=
  fun date => ([], Returned (getter date), date).

(** Lines 195-201, one getter call after the other. *)
Definition formatDatePrefix_steps : Step string :=
  year ← callGetter JS.getFullYear;
  month ← (m ← callGetter JS.getMonth; mret (pad (JS.add m (JS.Int 1))));
  day ← (d ← callGetter JS.getDate; mret (pad d));
  hours ← (h ← callGetter JS.getHours; mret (pad h));
  minutes ← (mi ← callGetter JS.getMinutes; mret (pad mi));
  mret (JS.toString year +:+ "-" +:+ month +:+ "-" +:+ day +:+ "-"
          +:+ hours +:+ "-" +:+ minutes).

(** ** Vocabulary of the further properties *)

Definition isDigit (c : Ascii.ascii) : bool :=
  let n := Ascii.nat_of_ascii c in
  (48 <=? n)%nat && (n <=? 57)%nat.

Fixpoint allDigits (s : string) : bool :=
  match s with
  | EmptyString => true
  | String c s' => isDigit c && allDigits s'
  end.

Fixpoint allZeros (s : string) : bool :=
  match s with
  | EmptyString => true
  | String c s' => Ascii.eqb c "0"%char && allZeros s'
  end.

(** The integer a getter returned (0 for [NaN]). *)
Definition fieldValue (n : JS.number) : Z :=
  match n with
  | JS.NaN => 0%Z
  | JS.Int z => z
  end.

(** The fields [formatDatePrefix] reads, as the local getters return them:
    year, month, day, hour, minute. *)
Definition minuteOf (d : JS.Date) : list Z :=
  [fieldValue (JS.getFullYear d); fieldValue (JS.getMonth d);
   fieldValue (JS.getDate d); fieldValue (JS.getHours d);
   fieldValue (JS.getMinutes d)].

(** Order of two lists of fields: the first field that differs decides. *)
Fixpoint compareFields (a b : list Z) : comparison :=
  match a, b with
  | [], [] => Eq
  | [], _ :: _ => Lt
  | _ :: _, [] => Gt
  | x :: a', y :: b' =>
      match (x ?= y)%Z with
      | Eq => compareFields a' b'
      | c => c
      end
  end.

Definition hasFourDigitYear (d : JS.Date) : bool :=
  JS.inRange 1000 9999 (JS.getFullYear d).

Definition isInput (ev : ChooserEvent) : bool :=
  match ev with
  | Input _ => true
  | _ => false
  end.

(** The query in the search field after the user's events: the last one
    typed, the empty string when nothing was typed. *)
Definition lastQuery (evs : list ChooserEvent) : string :=
  foldl (fun query ev =>
           match ev with
           | Input q => q
           | _ => query
           end) "" evs.

(** More sample inputs: a host whose vault creates the folder and refuses
    the file, and one whose leaf refuses to open the file. *)
Definition host_file_refused : Host :=
  mkHost [Input "NO"; Select 0] [Change "h"; Change "hello"; Click]
         date_2024_03_05_09_07
         (fun path => inr (mkFolder path))
         (fun _ _ => inl "Error: File already exists.")
         (fun _ => inr tt).

Definition host_open_refused : Host :=
  mkHost [Input "NO"; Select 0] [Change "h"; Change "hello"; Click]
         date_2024_03_05_09_07
         (fun path => inr (mkFolder path))
         (fun path _ => inr (mkFile path))
         (fun _ => inl "Error: Cannot open file.").

(** A host whose user leaves the title prompt after typing. *)
Definition host_title_dismissed : Host :=
  mkHost [Input "NO"; Select 0] [Change "hello"; DismissTitle; Click]
         date_2024_03_05_09_07
         (fun path => inr (mkFolder path))
         (fun path _ => inr (mkFile path))
         (fun _ => inr tt).

Definition date_2024_03_05_09_08 : JS.Date :=
  JS.mkDate (JS.Int 2024) (JS.Int 2) (JS.Int 5) (JS.Int 9) (JS.Int 8)
            (JS.Int 0) (JS.Int 0).

(** A host whose user types a query and leaves the chooser. *)
Definition host_chooser_dismissed : Host :=
  mkHost [Input "NO"; DismissChooser; Select 0] [Change "hello"; Click]
         date_2024_03_05_09_07
         (fun path => inr (mkFolder path))
         (fun path _ => inr (mkFile path))
         (fun _ => inr tt).

(** * Properties *)

(** ** Built-ins *)

Lemma string_app_cons c (a b : string) :
  String c a +:+ b = String c (a +:+ b).
Proof. reflexivity. Qed.

Lemma string_app_nil_l (a : string) : "" +:+ a = a.
Proof. reflexivity. Qed.

Lemma string_app_assoc (a b c : string) : (a +:+ b) +:+ c = a +:+ (b +:+ c).
Proof.
  induction a as [|x a IH]; [reflexivity|].
  now rewrite !string_app_cons, IH.
Qed.

Lemma startsWith_spec (s p : string) :
  JS.startsWith s p = true <-> exists after, s = p +:+ after.
Proof.
  revert s. induction p as [|c p IH]; intros s.
  - destruct s; (split; [intros _; eexists; reflexivity | reflexivity]).
  - destruct s as [|d s]; cbn [JS.startsWith].
    + split; [discriminate | intros [after H]; discriminate].
    + rewrite andb_true_iff, IH. split.
      * intros [Hc [after ->]]. apply Ascii.eqb_eq in Hc. subst d.
        now exists after.
      * intros [after H]. rewrite string_app_cons in H.
        injection H as -> ->. split.
        -- apply Ascii.eqb_refl.
        -- now exists after.
Qed.

Lemma includes_spec (s q : string) :
  JS.includes s q = true <-> isSubstring q s.
Proof.
  unfold isSubstring. induction s as [|d s IH].
  - cbn [JS.includes]. rewrite orb_false_r, startsWith_spec. split.
    + intros [after H]. now exists "", after.
    + intros [before [after H]]. destruct before; [|discriminate].
      now exists after.
  - cbn [JS.includes]. rewrite orb_true_iff, startsWith_spec, IH. split.
    + intros [[after H] | [before [after H]]].
      * now exists "", after.
      * exists (String d before), after.
        now rewrite string_app_cons, <- H.
    + intros [before [after H]]. destruct before as [|x before].
      * left. now exists after.
      * right. rewrite string_app_cons in H. injection H as _ ->.
        now exists before, after.
Qed.

Lemma countChar_app c (a b : string) :
  countChar c (a +:+ b) = countChar c a + countChar c b.
Proof.
  induction a as [|x a IH]; [reflexivity|].
  rewrite string_app_cons. cbn [countChar]. rewrite IH. lia.
Qed.

Lemma pathSegments_length (s : string) :
  length (pathSegments s) = S (countChar "/"%char s).
Proof.
  induction s as [|c s IH]; [reflexivity|].
  cbn [pathSegments countChar]. destruct (Ascii.eqb c "/"%char).
  - simpl. now rewrite IH.
  - destruct (pathSegments s); simpl in *; lia.
Qed.

Lemma countChar_truncatedFiller c n (rest filler : string) :
  countChar c rest = 0 -> countChar c filler = 0 ->
  countChar c (JS.truncatedFiller n rest filler) = 0.
Proof.
  revert rest. induction n as [|n IH]; intros rest Hrest Hfill;
    [reflexivity|].
  cbn [JS.truncatedFiller]. destruct rest as [|x rest].
  - destruct filler as [|y filler]; [reflexivity|].
    cbn [countChar] in *. rewrite IH; lia.
  - cbn [countChar] in *. rewrite IH; lia.
Qed.

Lemma countChar_padStart c (s : string) n (padString : string) :
  countChar c s = 0 -> countChar c padString = 0 ->
  countChar c (JS.padStart s n padString) = 0.
Proof.
  intros Hs Hp. unfold JS.padStart.
  destruct (n <=? String.length s)%nat; [assumption|].
  destruct (String.eqb padString ""); [assumption|].
  rewrite countChar_app, countChar_truncatedFiller; auto.
Qed.

Lemma pretty_N_char_not_slash x :
  Ascii.eqb (pretty_N_char x) "/"%char = false.
Proof. unfold pretty_N_char. repeat case_match; reflexivity. Qed.

Lemma countChar_pretty_N_go x (s : string) :
  countChar "/"%char (pretty_N_go x s) = countChar "/"%char s.
Proof.
  revert s. induction (N.lt_wf_0 x) as [x _ IH]; intros s.
  destruct (decide (x = 0)%N) as [->|Hx].
  - now rewrite pretty_N_go_0.
  - rewrite pretty_N_go_step by lia. rewrite IH by (apply N.div_lt; lia).
    cbn [countChar]. now rewrite pretty_N_char_not_slash.
Qed.

Lemma countChar_pretty_N (x : N) : countChar "/"%char (pretty x) = 0.
Proof.
  unfold pretty, pretty_N. case_decide; [reflexivity|].
  now rewrite countChar_pretty_N_go.
Qed.

Lemma countChar_toString (n : JS.number) :
  countChar "/"%char (JS.toString n) = 0.
Proof.
  destruct n as [|[|p|p]]; try reflexivity.
  - apply (countChar_pretty_N (Npos p)).
  - change (JS.toString (JS.Int (Z.neg p)))
      with ("-" +:+ pretty (Npos p)).
    rewrite countChar_app. now rewrite countChar_pretty_N.
Qed.

Lemma countChar_pad (n : JS.number) : countChar "/"%char (pad n) = 0.
Proof.
  unfold pad. apply countChar_padStart; [apply countChar_toString|reflexivity].
Qed.

Lemma countChar_formatDatePrefix (date : JS.Date) :
  countChar "/"%char (formatDatePrefix date) = 0.
Proof.
  unfold formatDatePrefix. cbv zeta.
  rewrite !countChar_app, !countChar_pad, countChar_toString. reflexivity.
Qed.

Lemma countChar_kindPrefix (postKind : string) :
  countChar "/"%char (kindPrefix postKind) = 0.
Proof. unfold kindPrefix. now destruct (String.eqb _ _). Qed.

(** [pad] writes every number from 0 to 99 on two digits. *)
Lemma pad_twoDigits (z : Z) :
  (0 <= z <= 99)%Z -> pad (JS.Int z) = twoDigits z.
Proof.
  intros Hz.
  assert (Hall : forallb (fun n => String.eqb (pad (JS.Int (Z.of_nat n)))
                                              (twoDigits (Z.of_nat n)))
                         (seq 0 100) = true) by (vm_compute; reflexivity).
  rewrite forallb_forall in Hall.
  specialize (Hall (Z.to_nat z)). rewrite Z2Nat.id in Hall by lia.
  apply String.eqb_eq, Hall, in_seq. lia.
Qed.

Lemma inRange_Int lo hi (n : JS.number) :
  JS.inRange lo hi n = true -> exists z, n = JS.Int z /\ (lo <= z <= hi)%Z.
Proof.
  destruct n as [|z]; [discriminate|]. cbn [JS.inRange].
  rewrite andb_true_iff, !Z.leb_le. intros [? ?]. exists z. auto.
Qed.

(** ** The naming function *)

(** C2: for every calendar instant, [formatDatePrefix] returns the year
    written in plain decimal (not padded), then the month counted from 1,
    the day, the hour and the minute, each on exactly two digits with a
    leading zero when needed, joined by "-"; for year 2024, month 3, day 5,
    hour 9 and minute 7 the result is "2024-03-05-09-07", and a three-digit
    year stays on three digits. *)
Theorem formatDatePrefix_format (date : JS.Date) :
  JS.isInstant date = true ->
  exists year month day hours minutes : Z,
    JS.getFullYear date = JS.Int year /\
    JS.getMonth date = JS.Int (month - 1) /\
    JS.getDate date = JS.Int day /\
    JS.getHours date = JS.Int hours /\
    JS.getMinutes date = JS.Int minutes /\
    formatDatePrefix date
    = pretty year +:+ "-" +:+ twoDigits month +:+ "-" +:+ twoDigits day
        +:+ "-" +:+ twoDigits hours +:+ "-" +:+ twoDigits minutes /\
    (year = 2024%Z -> month = 3%Z -> day = 5%Z -> hours = 9%Z ->
     minutes = 7%Z -> formatDatePrefix date = "2024-03-05-09-07") /\
    (year = 824%Z -> month = 3%Z -> day = 5%Z -> hours = 9%Z ->
     minutes = 7%Z -> formatDatePrefix date = "824-03-05-09-07").
Proof.
  unfold JS.isInstant. rewrite !andb_true_iff.
  intros [[[[[[Hy Hm] Hd] Hh] Hmi] _] _].
  apply inRange_Int in Hy as (y & Ey & Hy), Hm as (m & Em & Hm),
    Hd as (d & Ed & Hd), Hh as (h & Eh & Hh), Hmi as (mi & Emi & Hmi).
  exists y, (m + 1)%Z, d, h, mi.
  assert (Hfmt : formatDatePrefix date
                 = pretty y +:+ "-" +:+ twoDigits (m + 1) +:+ "-"
                     +:+ twoDigits d +:+ "-" +:+ twoDigits h +:+ "-"
                     +:+ twoDigits mi).
  { unfold formatDatePrefix. cbv zeta. rewrite Ey, Em, Ed, Eh, Emi.
    cbn [JS.add JS.toString].
    rewrite !pad_twoDigits by lia. reflexivity. }
  repeat split; try assumption.
  - rewrite Em. f_equal. lia.
  - intros E1 E2 E3 E4 E5. rewrite Hfmt, E1, E2, E3, E4, E5.
    vm_compute. reflexivity.
  - intros E1 E2 E3 E4 E5. rewrite Hfmt, E1, E2, E3, E4, E5.
    vm_compute. reflexivity.
Qed.

(** C8: [formatDatePrefix] is pure, total and deterministic.  Run call by
    call on any [Date] object, the invalid date included, it returns a
    string (it neither throws nor stays suspended), makes no request to
    the host and leaves the object it was passed unchanged; the string is
    the value of the function [formatDatePrefix] of that date; and two
    dates with equal year, month, day, hour and minute fields, whatever
    their seconds and milliseconds, give equal strings. *)
Theorem formatDatePrefix_pure_total (d1 d2 : JS.Date) :
  formatDatePrefix_steps d1 = ([], Returned (formatDatePrefix d1), d1) /\
  (exists result, (formatDatePrefix_steps d1).1.2 = Returned result) /\
  (formatDatePrefix_steps d1).1.1 = [] /\
  (formatDatePrefix_steps d1).2 = d1 /\
  (JS.getFullYear d1 = JS.getFullYear d2 ->
   JS.getMonth d1 = JS.getMonth d2 ->
   JS.getDate d1 = JS.getDate d2 ->
   JS.getHours d1 = JS.getHours d2 ->
   JS.getMinutes d1 = JS.getMinutes d2 ->
   formatDatePrefix d1 = formatDatePrefix d2 /\
   (formatDatePrefix_steps d1).1 = (formatDatePrefix_steps d2).1).
Proof.
  assert (Hrun : forall date,
             formatDatePrefix_steps date
             = ([], Returned (formatDatePrefix date), date))
    by reflexivity.
  rewrite !Hrun. cbn [fst snd].
  split; [reflexivity|]. split; [eauto|]. split; [reflexivity|].
  split; [reflexivity|].
  intros Hy Hm Hd Hh Hmi.
  assert (Heq : formatDatePrefix d1 = formatDatePrefix d2).
  { unfold formatDatePrefix. now rewrite Hy, Hm, Hd, Hh, Hmi. }
  split; [exact Heq | now rewrite Heq].
Qed.

(** ** The command *)

Section Command.

Variable toLowerCase : string -> string.
Variable host : Host.

(** The chooser is never resolved: the command stays suspended on it. *)
Lemma run_chooser_pending :
  postKindPromise toLowerCase host = JS.Pending ->
  create_new_post toLowerCase host = ([ModalOpen KindChooser], Suspended).
Proof.
  intros Hk. unfold create_new_post. rewrite Hk. reflexivity.
Qed.

Section KindResolved.

Variable postKind : string.
Hypothesis Hkind : postKindPromise toLowerCase host = JS.Resolved postKind.

Lemma run_title_pending :
  postTitlePromise host = JS.Pending ->
  create_new_post toLowerCase host
  = ([ModalOpen KindChooser; NoticeShown postKind; ModalOpen TitlePrompt],
     Suspended).
Proof.
  intros Ht. unfold create_new_post. rewrite Hkind, Ht. reflexivity.
Qed.

Section TitleResolved.

Variable postTitle : string.
Hypothesis Htitle : postTitlePromise host = JS.Resolved postTitle.

Lemma run_folder_failed e :
  vault_createFolder host (folderName postKind (now host) postTitle)
  = inl e ->
  create_new_post toLowerCase host
  = (promptCalls postKind postTitle
       ++ [CreateFolder (folderName postKind (now host) postTitle);
           NoticeShown e],
     Returned tt).
Proof.
  intros Hf. unfold create_new_post. rewrite Hkind, Htitle.
  cbn. rewrite Hf. reflexivity.
Qed.

Lemma run_folder_created folder :
  vault_createFolder host (folderName postKind (now host) postTitle)
  = inr folder ->
  exists rest,
    (create_new_post toLowerCase host).1
    = promptCalls postKind postTitle
        ++ [CreateFolder (folderName postKind (now host) postTitle);
            NoticeShown (folder_path folder)]
        ++ rest.
Proof.
  intros Hf. unfold create_new_post. rewrite Hkind, Htitle.
  cbn. rewrite Hf. cbn.
  destruct (vault_create host _ _) as [e|file]; cbn.
  - eexists. reflexivity.
  - destruct (leaf_openFile host file) as [e|[]]; cbn;
      eexists; reflexivity.
Qed.

Lemma run_requests_folder :
  exists rest,
    (create_new_post toLowerCase host).1
    = promptCalls postKind postTitle
        ++ [CreateFolder (folderName postKind (now host) postTitle)]
        ++ rest.
Proof.
  destruct (vault_createFolder host
              (folderName postKind (now host) postTitle))
    as [e|folder] eqn:Hf.
  - rewrite (run_folder_failed e Hf). eexists. reflexivity.
  - destruct (run_folder_created folder Hf) as [rest ->].
    eexists. reflexivity.
Qed.

End TitleResolved.
End KindResolved.
End Command.

(** C1: for every kind, title and timestamp the kind prefix is "note-"
    exactly when the kind is Note (and empty otherwise), the folder name is
    content/posts/{kindPrefix}{datePrefix}-{title}, and this is the folder
    the command asks the vault to create once both prompts have resolved.
    With a date prefix "2024-03-05-09-07" and title "hello" the path is
    "content/posts/note-2024-03-05-09-07-hello" for Note and
    "content/posts/2024-03-05-09-07-hello" for BlogPost. *)
Theorem folderName_spec (postKind postTitle : string) (date : JS.Date) :
  kindPrefix postKind
  = (if decide (postKind = PostKind_value Note) then "note-" else "") /\
  (forall kind : PostKind,
     kindPrefix (PostKind_value kind)
     = match kind with Note => "note-" | _ => "" end) /\
  folderName postKind date postTitle
  = "content/posts/" +:+ kindPrefix postKind +:+ formatDatePrefix date
      +:+ "-" +:+ postTitle /\
  (formatDatePrefix date = "2024-03-05-09-07" ->
   folderName (PostKind_value Note) date "hello"
   = "content/posts/note-2024-03-05-09-07-hello" /\
   folderName (PostKind_value BlogPost) date "hello"
   = "content/posts/2024-03-05-09-07-hello") /\
  (forall toLowerCase host,
     postKindPromise toLowerCase host = JS.Resolved postKind ->
     postTitlePromise host = JS.Resolved postTitle ->
     exists rest,
       (create_new_post toLowerCase host).1
       = [ModalOpen KindChooser; NoticeShown postKind;
          ModalOpen TitlePrompt; NoticeShown postTitle;
          CreateFolder (folderName postKind (now host) postTitle)] ++ rest).
Proof.
  split; [|split; [|split; [|split]]].
  - unfold kindPrefix. case_decide as H.
    + now rewrite H.
    + apply String.eqb_neq in H. now rewrite H.
  - now intros [].
  - reflexivity.
  - intros H. unfold folderName. cbv zeta. rewrite H. split; reflexivity.
  - intros toLowerCase host Hk Ht.
    apply (run_requests_folder toLowerCase host postKind Hk postTitle Ht).
Qed.


(** C4: when both prompts have resolved and the vault refuses the folder,
    the command ends normally after exactly one more request, a notice
    showing the failure's description (the third notice of the run, after
    those of the kind and of the title); the refused folder creation is its
    only storage or navigation request: no file is created, nothing is
    opened, the creation is not tried again. *)
Theorem create_new_post_folder_failure toLowerCase (host : Host)
    (postKind postTitle e : string) :
  postKindPromise toLowerCase host = JS.Resolved postKind ->
  postTitlePromise host = JS.Resolved postTitle ->
  vault_createFolder host (folderName postKind (now host) postTitle)
  = inl e ->
  create_new_post toLowerCase host
  = ([ModalOpen KindChooser; NoticeShown postKind;
      ModalOpen TitlePrompt; NoticeShown postTitle]
       ++ [CreateFolder (folderName postKind (now host) postTitle);
           NoticeShown e],
     Returned tt) /\
  List.filter isStorageOrNavigation (create_new_post toLowerCase host).1
  = [CreateFolder (folderName postKind (now host) postTitle)] /\
  List.filter isNotice (create_new_post toLowerCase host).1
  = [NoticeShown postKind; NoticeShown postTitle; NoticeShown e].
Proof.
  intros Hk Ht Hf.
  rewrite (run_folder_failed toLowerCase host postKind Hk postTitle Ht e Hf).
  repeat split; reflexivity.
Qed.

(** C10: in every run, once the chooser has resolved the command shows a
    notice with the kind before it opens the title prompt; once the title
    prompt has resolved it shows a notice with the title and then asks for
    the folder; and when the vault answers with a folder it shows a notice
    with that folder's path next. *)
Theorem create_new_post_notices toLowerCase (host : Host)
    (postKind : string) :
  postKindPromise toLowerCase host = JS.Resolved postKind ->
  (exists rest,
     (create_new_post toLowerCase host).1
     = [ModalOpen KindChooser; NoticeShown postKind; ModalOpen TitlePrompt]
         ++ rest) /\
  (forall postTitle,
     postTitlePromise host = JS.Resolved postTitle ->
     (exists rest,
        (create_new_post toLowerCase host).1
        = [ModalOpen KindChooser; NoticeShown postKind;
           ModalOpen TitlePrompt; NoticeShown postTitle;
           CreateFolder (folderName postKind (now host) postTitle)]
            ++ rest) /\
     (forall folder,
        vault_createFolder host (folderName postKind (now host) postTitle)
        = inr folder ->
        exists rest,
          (create_new_post toLowerCase host).1
          = [ModalOpen KindChooser; NoticeShown postKind;
             ModalOpen TitlePrompt; NoticeShown postTitle;
             CreateFolder (folderName postKind (now host) postTitle);
             NoticeShown (folder_path folder)] ++ rest)).
Proof.
  intros Hk. split.
  - destruct (postTitlePromise host) as [|postTitle] eqn:Ht.
    + rewrite (run_title_pending toLowerCase host postKind Hk Ht).
      exists []. reflexivity.
    + destruct (run_requests_folder toLowerCase host postKind Hk postTitle Ht)
        as [rest ->].
      eexists. reflexivity.
  - intros postTitle Ht. split.
    + apply (run_requests_folder toLowerCase host postKind Hk postTitle Ht).
    + intros folder Hf.
      apply (run_folder_created toLowerCase host postKind Hk postTitle Ht
               folder Hf).
Qed.

(** ** The Choice Prompt *)

Section Suggestions.

Variable toLowerCase : string -> string.

Lemma filterCandidates_elem_of candidates query postKind :
  postKind ∈ filterCandidates toLowerCase candidates query
  <-> postKind ∈ candidates /\ matchesQuery toLowerCase query postKind.
Proof.
  unfold filterCandidates, matchesQuery.
  rewrite !list_elem_of_In, filter_In, includes_spec. reflexivity.
Qed.

Lemma filterCandidates_sublist candidates query :
  sublist (filterCandidates toLowerCase candidates query) candidates.
Proof.
  unfold filterCandidates.
  induction candidates as [|c candidates IH]; cbn [List.filter].
  - constructor.
  - destruct (JS.includes _ _); now constructor.
Qed.

Lemma filterCandidates_filter candidates query
    (dec : forall postKind,
        Decision (matchesQuery toLowerCase query postKind)) :
  filterCandidates toLowerCase candidates query
  = filter (matchesQuery toLowerCase query) candidates.
Proof.
  unfold filterCandidates.
  induction candidates as [|c candidates IH]; [reflexivity|].
  cbn [List.filter]. rewrite filter_cons, IH.
  destruct (JS.includes _ _) eqn:Hinc; case_decide as Hm;
    try reflexivity.
  - exfalso. apply Hm, includes_spec, Hinc.
  - apply includes_spec in Hm. congruence.
Qed.

Lemma filterCandidates_idempotent candidates query :
  filterCandidates toLowerCase
    (filterCandidates toLowerCase candidates query) query
  = filterCandidates toLowerCase candidates query.
Proof.
  unfold filterCandidates.
  induction candidates as [|c candidates IH]; [reflexivity|].
  cbn [List.filter]. destruct (JS.includes _ _) eqn:Hinc; [|assumption].
  cbn [List.filter]. now rewrite Hinc, IH.
Qed.

(** C3: for every query, the suggestions are exactly the candidates
    "blogpost", "note", "photos" whose lowercased text contains the
    lowercased query as a substring, kept in the candidates' order: the
    result is the candidate list filtered by that test (whichever way the
    test is decided), hence a subsequence of it with exactly those
    members. *)
Theorem getSuggestions_filter (query : string) :
  PostKind_values = ["blogpost"; "note"; "photos"] /\
  (forall dec : (forall postKind,
                   Decision (matchesQuery toLowerCase query postKind)),
     getSuggestions toLowerCase query
     = filter (matchesQuery toLowerCase query) PostKind_values) /\
  sublist (getSuggestions toLowerCase query) PostKind_values /\
  (forall postKind,
     postKind ∈ getSuggestions toLowerCase query
     <-> postKind ∈ PostKind_values
         /\ matchesQuery toLowerCase query postKind).
Proof.
  split; [reflexivity|]. split; [|split].
  - intros dec. apply filterCandidates_filter.
  - apply filterCandidates_sublist.
  - intros postKind. apply filterCandidates_elem_of.
Qed.

(** C7: the filter only returns candidates, and filtering its output
    again with the same query changes nothing; both hold for the chooser's
    suggestions and for the filter over any candidate list. *)
Theorem getSuggestions_subset_idempotent (query : string) :
  (forall postKind,
     postKind ∈ getSuggestions toLowerCase query ->
     postKind ∈ PostKind_values) /\
  filterCandidates toLowerCase (getSuggestions toLowerCase query) query
  = getSuggestions toLowerCase query /\
  (forall candidates,
     filterCandidates toLowerCase candidates query ⊆ candidates /\
     filterCandidates toLowerCase
       (filterCandidates toLowerCase candidates query) query
     = filterCandidates toLowerCase candidates query).
Proof.
  split; [|split].
  - intros postKind H. now apply filterCandidates_elem_of in H.
  - apply filterCandidates_idempotent.
  - intros candidates. split.
    + intros postKind H. now apply filterCandidates_elem_of in H.
    + apply filterCandidates_idempotent.
Qed.

End Suggestions.

(** ** The Text Prompt *)

Lemma PostTitleModal_closed (m : PostTitleModal) (evs : list TitleEvent) :
  titleOpen m = false -> foldl PostTitleModal_handle m evs = m.
Proof.
  intros Hm. induction evs as [|ev evs IH]; [reflexivity|].
  cbn [foldl]. unfold PostTitleModal_handle at 2. now rewrite Hm.
Qed.

Lemma PostTitleModal_typing (buffer : string) (calls : list string)
    (typed : list TitleEvent) :
  forallb isChange typed = true ->
  foldl PostTitleModal_handle (mkTitleModal buffer true calls) typed
  = mkTitleModal
      (foldl (fun b ev => match ev with Change value => value | _ => b end)
             buffer typed)
      true calls.
Proof.
  revert buffer. induction typed as [|ev typed IH]; intros buffer Hty;
    [reflexivity|].
  cbn [forallb] in Hty. apply andb_true_iff in Hty as [Hev Hty].
  destruct ev; try discriminate. cbn [foldl]. now apply IH.
Qed.

(** C5: while the user only types, the prompt has not resolved; at the
    first press of Submit it calls [onSubmit] exactly once, with the value
    last typed, and the promise stays resolved with that value whatever
    happens afterwards; pressing Submit before typing anything resolves it
    with the empty string. *)
Theorem PostTitleModal_resolves_once (typed rest : list TitleEvent) :
  forallb isChange typed = true ->
  promise_of_calls (titleSubmitted (PostTitleModal_run typed)) = JS.Pending /\
  name (PostTitleModal_run typed) = lastTyped typed /\
  titleSubmitted (PostTitleModal_run (typed ++ Click :: rest))
  = [lastTyped typed] /\
  promise_of_calls
    (titleSubmitted (PostTitleModal_run (typed ++ Click :: rest)))
  = JS.Resolved (lastTyped typed) /\
  promise_of_calls (titleSubmitted (PostTitleModal_run (Click :: rest)))
  = JS.Resolved "".
Proof.
  intros Hty. unfold PostTitleModal_run, PostTitleModal_new, lastTyped.
  rewrite foldl_app, (PostTitleModal_typing "" [] typed Hty).
  cbn [foldl]. unfold PostTitleModal_handle at 2 4. cbn.
  rewrite !PostTitleModal_closed by reflexivity. cbn. auto.
Qed.

(** ** The settings *)

(** What storing every own key of one source does to a target that still
    inherits from [Object.prototype]: every key but "__proto__" is
    overridden by the source, "__proto__" is left as it was, and the
    prototype becomes [null] only for a source holding [__proto__: null]. *)
Lemma map_fold_object_set (acc : object) (o : gmap string value) :
  nullPrototype acc = false ->
  (forall key,
     key <> "__proto__" ->
     own (map_fold object_set acc o) !! key
     = match o !! key with
       | Some v => Some v
       | None => own acc !! key
       end) /\
  own (map_fold object_set acc o) !! "__proto__" = own acc !! "__proto__" /\
  (nullPrototype (map_fold object_set acc o) = true ->
   o !! "__proto__" = Some VNull).
Proof.
  intros Hacc.
  apply (map_fold_weak_ind
           (fun r m =>
              (forall key,
                 key <> "__proto__" ->
                 own r !! key
                 = match m !! key with
                   | Some v => Some v
                   | None => own acc !! key
                   end) /\
              own r !! "__proto__" = own acc !! "__proto__" /\
              (nullPrototype r = true -> m !! "__proto__" = Some VNull))
           object_set acc).
  - split; [|split].
    + intros key _. now rewrite lookup_empty.
    + reflexivity.
    + congruence.
  - intros i x m r Hi (IH1 & IH2 & IH3). unfold object_set.
    destruct (String.eqb i "__proto__") eqn:Ei.
    + apply String.eqb_eq in Ei. subst i.
      destruct (nullPrototype r) eqn:Hr.
      { rewrite IH3 in Hi by reflexivity. discriminate. }
      assert (Hother : forall key,
                 key <> "__proto__" ->
                 own r !! key
                 = match <["__proto__":=x]> m !! key with
                   | Some v => Some v
                   | None => own acc !! key
                   end).
      { intros key Hkey. rewrite lookup_insert_ne by congruence.
        now apply IH1. }
      cbn [andb negb].
      destruct x; cbn [own nullPrototype]; (split; [exact Hother|]);
        (split; [exact IH2|]); rewrite ?Hr; try discriminate.
      intros _. apply lookup_insert_eq.
    + apply String.eqb_neq in Ei. cbn [andb own nullPrototype].
      split; [|split].
      * intros key Hkey. destruct (decide (i = key)) as [->|Hne].
        -- now rewrite !lookup_insert_eq.
        -- rewrite !lookup_insert_ne by exact Hne. now apply IH1.
      * now rewrite lookup_insert_ne by exact Ei.
      * intros Hr. rewrite lookup_insert_ne by exact Ei. now apply IH3.
Qed.

Lemma DEFAULT_SETTINGS_lookup key :
  DEFAULT_SETTINGS !! key
  = if decide (key = "mySetting") then Some (VString "test") else None.
Proof.
  unfold DEFAULT_SETTINGS. case_decide as Hk.
  - subst key. apply lookup_singleton_eq.
  - apply lookup_singleton_ne. congruence.
Qed.

(** The settings after [loadSettings], key by key. *)
Lemma loadSettings_lookup this disk key :
  settings (loadSettings this disk) !! key
  = if decide (key = "__proto__") then None
    else match disk with
         | Some data =>
             match data !! key with
             | Some v => Some v
             | None => DEFAULT_SETTINGS !! key
             end
         | None => DEFAULT_SETTINGS !! key
         end.
Proof.
  unfold loadSettings, loadData, Object_assign. cbn [settings foldl].
  destruct (map_fold_object_set (mkObject ∅ false) DEFAULT_SETTINGS eq_refl)
    as (D1 & D2 & D3).
  cbn [own] in D1, D2.
  assert (Hproto : nullPrototype
                     (map_fold object_set (mkObject ∅ false) DEFAULT_SETTINGS)
                   = false).
  { destruct (nullPrototype _) eqn:Hn; [|reflexivity].
    specialize (D3 eq_refl). rewrite DEFAULT_SETTINGS_lookup in D3.
    rewrite decide_False in D3 by discriminate. discriminate. }
  assert (Hdefault : forall k,
             own (map_fold object_set (mkObject ∅ false) DEFAULT_SETTINGS)
             !! k
             = if decide (k = "__proto__") then None
               else DEFAULT_SETTINGS !! k).
  { intros k. case_decide as Hk.
    - subst k. now rewrite D2, lookup_empty.
    - rewrite (D1 k Hk), lookup_empty.
      now destruct (DEFAULT_SETTINGS !! k). }
  destruct disk as [data|]; [|apply Hdefault].
  destruct (map_fold_object_set _ data Hproto) as (S1 & S2 & _).
  case_decide as Hk.
  - subst key. rewrite S2, Hdefault. now rewrite decide_True.
  - rewrite (S1 key Hk), Hdefault. now rewrite decide_False.
Qed.

(** Loading data that has the key "mySetting" and no key "__proto__"
    yields that data. *)
Lemma loadSettings_saved this (data : gmap string value) :
  is_Some (data !! "mySetting") -> data !! "__proto__" = None ->
  settings (loadSettings this (Some data)) = data.
Proof.
  intros [v Hv] Hproto. apply map_eq. intros key.
  rewrite loadSettings_lookup, DEFAULT_SETTINGS_lookup.
  case_decide as Hk; [subst key; now rewrite Hproto|].
  destruct (data !! key) eqn:Hkey; [reflexivity|].
  case_decide; [subst key; congruence | reflexivity].
Qed.

(** C6 (amended): loading after saving the record {mySetting: x} yields
    that record (for "x" and every other string); loading when nothing was
    saved yields {mySetting: "test"}; every key of the loaded data other
    than "__proto__" overrides the default while a key the data lacks keeps
    the default's value; a key "__proto__" of the data is never a key of
    the settings. *)
Theorem settings_round_trip :
  (forall (x : string) this' disk,
     settings (loadSettings this'
                 (saveSettings (mkPlugin {[ "mySetting" := VString x ]}) disk))
     = {[ "mySetting" := VString x ]}) /\
  (forall this, settings (loadSettings this None)
                = {[ "mySetting" := VString "test" ]}) /\
  (forall this data key,
     key <> "__proto__" ->
     settings (loadSettings this (Some data)) !! key
     = match data !! key with
       | Some v => Some v
       | None => DEFAULT_SETTINGS !! key
       end) /\
  (forall this disk,
     settings (loadSettings this disk) !! "__proto__" = None).
Proof.
  split; [|split; [|split]].
  - intros x this' disk. unfold saveSettings, saveData. cbn [settings].
    apply loadSettings_saved.
    + rewrite lookup_singleton_eq. eauto.
    + now apply lookup_singleton_ne.
  - intros this. apply map_eq. intros key.
    rewrite loadSettings_lookup, DEFAULT_SETTINGS_lookup.
    fold DEFAULT_SETTINGS. rewrite DEFAULT_SETTINGS_lookup.
    case_decide as Hk; [|reflexivity].
    subst key. now rewrite decide_False.
  - intros this data key Hkey. rewrite loadSettings_lookup.
    now rewrite decide_False.
  - intros this disk. rewrite loadSettings_lookup. now rewrite decide_True.
Qed.

(** ** The code on the sample inputs *)

Example formatDatePrefix_invalid :
  formatDatePrefix JS.invalidDate = "NaN-NaN-NaN-NaN-NaN".
Proof. vm_compute. reflexivity. Qed.

Example formatDatePrefix_last_minute_of_year :
  formatDatePrefix
    (JS.mkDate (JS.Int 1999) (JS.Int 11) (JS.Int 31) (JS.Int 23) (JS.Int 59)
               (JS.Int 59) (JS.Int 999))
  = "1999-12-31-23-59".
Proof. vm_compute. reflexivity. Qed.

Example padStart_long_filler : JS.padStart "7" 5 "abc" = "abca7".
Proof. vm_compute. reflexivity. Qed.

Example create_new_post_ok :
  create_new_post lowerAsciiString host_ok
  = ([ModalOpen KindChooser; NoticeShown "note";
      ModalOpen TitlePrompt; NoticeShown "hello";
      CreateFolder "content/posts/note-2024-03-05-09-07-hello";
      NoticeShown "content/posts/note-2024-03-05-09-07-hello";
      Create "content/posts/note-2024-03-05-09-07-hello/index.md" "";
      GetLeaf false;
      OpenFile (mkFile "content/posts/note-2024-03-05-09-07-hello/index.md")],
     Returned tt).
Proof. vm_compute. reflexivity. Qed.

(** A query that matches no kind leaves nothing to select: the command
    stays suspended on the chooser. *)
Example create_new_post_no_match :
  create_new_post lowerAsciiString
    (mkHost [Input "zz"; Select 0] (titleUser host_ok) (now host_ok)
            (vault_createFolder host_ok) (vault_create host_ok)
            (leaf_openFile host_ok))
  = ([ModalOpen KindChooser], Suspended).
Proof. vm_compute. reflexivity. Qed.

(** The keys of a data file holding [__proto__: null] apart from that
    one are loaded as usual. *)
Example loadSettings_null_proto :
  settings (loadSettings (mkPlugin ∅)
              (Some {[ "__proto__" := VNull; "mySetting" := VString "x" ]}))
  = {[ "mySetting" := VString "x" ]}.
Proof.
  apply map_eq. intros key. rewrite loadSettings_lookup.
  case_decide as Hk; [subst key; reflexivity|].
  destruct (decide (key = "mySetting")) as [->|Hne]; [reflexivity|].
  rewrite lookup_insert_ne by congruence.
  rewrite !lookup_singleton_ne by congruence.
  rewrite DEFAULT_SETTINGS_lookup. now rewrite decide_False.
Qed.

Example loadSettings_other_key :
  settings (loadSettings (mkPlugin ∅) (Some {[ "other" := VNumber 1 ]}))
  !! "mySetting" = Some (VString "test").
Proof. reflexivity. Qed.

(** ** The theorems on the sample inputs *)

Lemma formatDatePrefix_format_witness :
  JS.isInstant date_2024_03_05_09_07 = true /\
  exists year month day hours minutes : Z,
    JS.getFullYear date_2024_03_05_09_07 = JS.Int year /\
    JS.getMonth date_2024_03_05_09_07 = JS.Int (month - 1) /\
    JS.getDate date_2024_03_05_09_07 = JS.Int day /\
    JS.getHours date_2024_03_05_09_07 = JS.Int hours /\
    JS.getMinutes date_2024_03_05_09_07 = JS.Int minutes /\
    formatDatePrefix date_2024_03_05_09_07
    = pretty year +:+ "-" +:+ twoDigits month +:+ "-" +:+ twoDigits day
        +:+ "-" +:+ twoDigits hours +:+ "-" +:+ twoDigits minutes /\
    (year = 2024%Z -> month = 3%Z -> day = 5%Z -> hours = 9%Z ->
     minutes = 7%Z ->
     formatDatePrefix date_2024_03_05_09_07 = "2024-03-05-09-07") /\
    (year = 824%Z -> month = 3%Z -> day = 5%Z -> hours = 9%Z ->
     minutes = 7%Z ->
     formatDatePrefix date_2024_03_05_09_07 = "824-03-05-09-07").
Proof.
  split; [reflexivity|].
  apply (formatDatePrefix_format date_2024_03_05_09_07). reflexivity.
Defined.

Lemma formatDatePrefix_pure_total_witness :
  date_2024_03_05_09_07 <> date_2024_03_05_09_07_late /\
  formatDatePrefix date_2024_03_05_09_07
  = formatDatePrefix date_2024_03_05_09_07_late /\
  formatDatePrefix_steps JS.invalidDate
  = ([], Returned "NaN-NaN-NaN-NaN-NaN", JS.invalidDate).
Proof.
  split; [discriminate|]. split.
  - destruct (formatDatePrefix_pure_total date_2024_03_05_09_07
                date_2024_03_05_09_07_late) as (_ & _ & _ & _ & Hdet).
    apply Hdet; reflexivity.
  - exact (proj1 (formatDatePrefix_pure_total JS.invalidDate
                    JS.invalidDate)).
Defined.

Lemma folderName_spec_witness :
  formatDatePrefix date_2024_03_05_09_07 = "2024-03-05-09-07" /\
  folderName "note" date_2024_03_05_09_07 "hello"
  = "content/posts/note-2024-03-05-09-07-hello" /\
  folderName "blogpost" date_2024_03_05_09_07 "hello"
  = "content/posts/2024-03-05-09-07-hello" /\
  exists rest,
    (create_new_post lowerAsciiString host_ok).1
    = [ModalOpen KindChooser; NoticeShown "note";
       ModalOpen TitlePrompt; NoticeShown "hello";
       CreateFolder "content/posts/note-2024-03-05-09-07-hello"] ++ rest.
Proof.
  destruct (folderName_spec "note" "hello" date_2024_03_05_09_07)
    as (_ & _ & _ & Hname & Hrun).
  split; [reflexivity|].
  split; [apply Hname; reflexivity|].
  split; [apply Hname; reflexivity|].
  apply (Hrun lowerAsciiString host_ok); reflexivity.
Defined.


Lemma create_new_post_folder_failure_witness :
  postKindPromise lowerAsciiString host_folder_exists = JS.Resolved "note" /\
  postTitlePromise host_folder_exists = JS.Resolved "hello" /\
  vault_createFolder host_folder_exists
    "content/posts/note-2024-03-05-09-07-hello"
  = inl "Error: Folder already exists." /\
  create_new_post lowerAsciiString host_folder_exists
  = ([ModalOpen KindChooser; NoticeShown "note";
      ModalOpen TitlePrompt; NoticeShown "hello";
      CreateFolder "content/posts/note-2024-03-05-09-07-hello";
      NoticeShown "Error: Folder already exists."],
     Returned tt) /\
  List.filter isStorageOrNavigation
    (create_new_post lowerAsciiString host_folder_exists).1
  = [CreateFolder "content/posts/note-2024-03-05-09-07-hello"] /\
  List.filter isNotice (create_new_post lowerAsciiString host_folder_exists).1
  = [NoticeShown "note"; NoticeShown "hello";
     NoticeShown "Error: Folder already exists."].
Proof.
  split; [reflexivity|]. split; [reflexivity|]. split; [reflexivity|].
  apply (create_new_post_folder_failure lowerAsciiString host_folder_exists
           "note" "hello" "Error: Folder already exists.");
    reflexivity.
Defined.

Lemma create_new_post_notices_witness :
  postKindPromise lowerAsciiString host_ok = JS.Resolved "note" /\
  postTitlePromise host_ok = JS.Resolved "hello" /\
  vault_createFolder host_ok "content/posts/note-2024-03-05-09-07-hello"
  = inr (mkFolder "content/posts/note-2024-03-05-09-07-hello") /\
  exists rest,
    (create_new_post lowerAsciiString host_ok).1
    = [ModalOpen KindChooser; NoticeShown "note";
       ModalOpen TitlePrompt; NoticeShown "hello";
       CreateFolder "content/posts/note-2024-03-05-09-07-hello";
       NoticeShown "content/posts/note-2024-03-05-09-07-hello"] ++ rest.
Proof.
  split; [reflexivity|]. split; [reflexivity|]. split; [reflexivity|].
  destruct (create_new_post_notices lowerAsciiString host_ok "note" eq_refl)
    as [_ Htitle].
  destruct (Htitle "hello" eq_refl) as [_ Hfolder].
  apply (Hfolder (mkFolder "content/posts/note-2024-03-05-09-07-hello")).
  reflexivity.
Defined.

Lemma getSuggestions_filter_witness :
  getSuggestions lowerAsciiString "O" = ["blogpost"; "note"; "photos"] /\
  getSuggestions lowerAsciiString "NO" = ["note"] /\
  sublist (getSuggestions lowerAsciiString "NO") PostKind_values /\
  "note" ∈ getSuggestions lowerAsciiString "NO".
Proof.
  destruct (getSuggestions_filter lowerAsciiString "NO")
    as (_ & _ & Hsub & Hmem).
  split; [reflexivity|]. split; [reflexivity|]. split; [exact Hsub|].
  apply Hmem. split.
  - apply list_elem_of_In. vm_compute. auto.
  - exists "", "te". reflexivity.
Defined.

Lemma getSuggestions_subset_idempotent_witness :
  "photos" ∈ getSuggestions lowerAsciiString "PH" /\
  "photos" ∈ PostKind_values /\
  filterCandidates lowerAsciiString (getSuggestions lowerAsciiString "PH") "PH"
  = getSuggestions lowerAsciiString "PH".
Proof.
  assert (Hin : "photos" ∈ getSuggestions lowerAsciiString "PH").
  { apply list_elem_of_In. vm_compute. auto. }
  destruct (getSuggestions_subset_idempotent lowerAsciiString "PH")
    as (Hsub & Hidem & _).
  split; [exact Hin|]. split; [exact (Hsub "photos" Hin)|]. exact Hidem.
Defined.

Lemma PostTitleModal_resolves_once_witness :
  forallb isChange [Change "h"; Change "hello"] = true /\
  titleSubmitted
    (PostTitleModal_run
       ([Change "h"; Change "hello"] ++ Click :: [Change "bye"; Click]))
  = ["hello"] /\
  promise_of_calls
    (titleSubmitted
       (PostTitleModal_run
          ([Change "h"; Change "hello"] ++ Click :: [Change "bye"; Click])))
  = JS.Resolved "hello".
Proof.
  split; [reflexivity|].
  destruct (PostTitleModal_resolves_once [Change "h"; Change "hello"]
              [Change "bye"; Click] eq_refl)
    as (_ & _ & Hcalls & Hpromise & _).
  split; [exact Hcalls | exact Hpromise].
Defined.

(** A key "__proto__" of the data file is present in the loaded data and
    absent from the settings: it neither overrides a default nor becomes a
    key. *)
Lemma settings_round_trip_counterexample :
  ({[ "__proto__" := VString "s" ]} : gmap string value) !! "__proto__"
  = Some (VString "s") /\
  settings (loadSettings (mkPlugin ∅) (Some {[ "__proto__" := VString "s" ]}))
  !! "__proto__"
  <> match ({[ "__proto__" := VString "s" ]} : gmap string value)
           !! "__proto__" with
     | Some v => Some v
     | None => DEFAULT_SETTINGS !! "__proto__"
     end.
Proof.
  split; [reflexivity|]. rewrite loadSettings_lookup. discriminate.
Qed.

Lemma settings_round_trip_witness :
  "other" <> "__proto__" /\
  settings (loadSettings (mkPlugin ∅)
              (Some {[ "other" := VNumber 1; "mySetting" := VString "x" ]}))
  !! "other" = Some (VNumber 1) /\
  settings (loadSettings (mkPlugin ∅)
              (Some {[ "other" := VNumber 1; "mySetting" := VString "x" ]}))
  !! "mySetting" = Some (VString "x").
Proof.
  assert (Hne : "other" <> "__proto__") by discriminate.
  destruct settings_round_trip as (_ & _ & Hmerge & _).
  split; [exact Hne|]. split.
  - rewrite (Hmerge (mkPlugin ∅) _ "other" Hne). reflexivity.
  - rewrite (Hmerge (mkPlugin ∅) _ "mySetting") by discriminate.
    reflexivity.
Defined.

(** * Further properties of the code *)

(** ** The shape of the date prefix *)

Lemma string_app_length (a b : string) :
  String.length (a +:+ b) = String.length a + String.length b.
Proof.
  induction a as [|x a IH]; [reflexivity|].
  rewrite string_app_cons. cbn [String.length]. now rewrite IH.
Qed.

Lemma allDigits_app (a b : string) :
  allDigits (a +:+ b) = allDigits a && allDigits b.
Proof.
  induction a as [|x a IH]; [reflexivity|].
  rewrite string_app_cons. cbn [allDigits]. now rewrite IH, andb_assoc.
Qed.

Lemma pretty_N_char_digit x : isDigit (pretty_N_char x) = true.
Proof. unfold pretty_N_char. repeat case_match; reflexivity. Qed.

Lemma pretty_N_go_digits x (s : string) :
  exists front, pretty_N_go x s = front +:+ s /\ allDigits front = true.
Proof.
  revert s. induction (N.lt_wf_0 x) as [x _ IH]; intros s.
  destruct (decide (x = 0)%N) as [->|Hx].
  - exists "". now rewrite pretty_N_go_0.
  - rewrite pretty_N_go_step by lia.
    destruct (IH (x `div` 10)%N (N.div_lt x 10 ltac:(lia) eq_refl)
                 (String (pretty_N_char (x `mod` 10)) s))
      as (front & -> & Hfront).
    exists (front +:+ String (pretty_N_char (x `mod` 10)) "").
    rewrite string_app_assoc, allDigits_app, Hfront. cbn [allDigits].
    now rewrite pretty_N_char_digit.
Qed.

(** The decimal form of a natural number: at least one character, digits
    only. *)
Lemma pretty_N_digits (x : N) :
  exists c ds, pretty x = String c ds
               /\ isDigit c = true /\ allDigits ds = true.
Proof.
  unfold pretty, pretty_N. case_decide as Hx.
  - exists "0"%char, "". auto.
  - rewrite pretty_N_go_step by lia.
    destruct (pretty_N_go_digits (x `div` 10)
                (String (pretty_N_char (x `mod` 10)) ""))
      as (front & -> & Hfront).
    pose proof (pretty_N_char_digit (x `mod` 10)) as Hc.
    destruct front as [|c front].
    + eexists _, _. rewrite string_app_nil_l. auto.
    + cbn [allDigits] in Hfront. apply andb_true_iff in Hfront as [H1 H2].
      eexists c, _. rewrite string_app_cons. split; [reflexivity|].
      split; [assumption|]. rewrite allDigits_app, H2. cbn [allDigits].
      now rewrite Hc.
Qed.

(** Digits followed by a dash are read back unambiguously. *)
Lemma digits_dash_inj (d1 d2 a b : string) :
  allDigits d1 = true -> allDigits d2 = true ->
  d1 +:+ String "-" a = d2 +:+ String "-" b -> d1 = d2 /\ a = b.
Proof.
  revert d2. induction d1 as [|c d1 IH]; intros d2 H1 H2 Heq.
  - destruct d2 as [|c2 d2].
    + rewrite !string_app_nil_l in Heq. now injection Heq.
    + rewrite string_app_nil_l, string_app_cons in Heq.
      injection Heq as <- _. discriminate.
  - destruct d2 as [|c2 d2].
    + rewrite string_app_nil_l, string_app_cons in Heq.
      injection Heq as -> _. discriminate.
    + rewrite !string_app_cons in Heq. injection Heq as -> Heq.
      cbn [allDigits] in H1, H2.
      apply andb_true_iff in H1 as [_ H1], H2 as [_ H2].
      destruct (IH d2 H1 H2 Heq) as [-> ->]. auto.
Qed.

(** The same for the decimal forms of two integers. *)
Lemma pretty_Z_dash_inj (y1 y2 : Z) (a b : string) :
  pretty y1 +:+ String "-" a = pretty y2 +:+ String "-" b ->
  y1 = y2 /\ a = b.
Proof.
  assert (Hpos : forall p, exists c ds,
             pretty (Z.pos p) = String c ds
             /\ isDigit c = true /\ allDigits ds = true)
    by (intros p; apply (pretty_N_digits (Npos p))).
  assert (Hneg : forall p, exists c ds,
             pretty (Z.neg p) = String "-" (String c ds)
             /\ isDigit c = true /\ allDigits ds = true).
  { intros p. destruct (pretty_N_digits (Npos p)) as (c & ds & E & Hc & Hds).
    exists c, ds. split; [|auto].
    change (pretty (Z.neg p)) with ("-" +:+ pretty (Npos p)).
    now rewrite E. }
  assert (Hshape : forall y : Z, exists sign c ds,
             pretty y = sign +:+ String c ds
             /\ (sign = "" \/ sign = "-")
             /\ isDigit c = true /\ allDigits ds = true).
  { intros [|p|p].
    - exists "", "0"%char, "". auto.
    - destruct (Hpos p) as (c & ds & E & ? & ?). exists "", c, ds. auto.
    - destruct (Hneg p) as (c & ds & E & ? & ?). exists "-", c, ds. auto. }
  intros Heq.
  destruct (Hshape y1) as (s1 & c1 & ds1 & E1 & Hs1 & Hc1 & Hds1).
  destruct (Hshape y2) as (s2 & c2 & ds2 & E2 & Hs2 & Hc2 & Hds2).
  assert (Hd1 : allDigits (String c1 ds1) = true)
    by (cbn [allDigits]; now rewrite Hc1, Hds1).
  assert (Hd2 : allDigits (String c2 ds2) = true)
    by (cbn [allDigits]; now rewrite Hc2, Hds2).
  rewrite E1, E2 in Heq.
  destruct Hs1 as [-> | ->], Hs2 as [-> | ->];
    rewrite ?string_app_nil_l, ?string_app_cons in Heq.
  - injection Heq as -> Heq.
    destruct (digits_dash_inj ds1 ds2 a b Hds1 Hds2 Heq) as [-> ->].
    split; [|reflexivity]. apply pretty_Z_inj. now rewrite E1, E2.
  - injection Heq as -> _. discriminate.
  - injection Heq as <- _. discriminate.
  - rewrite !string_app_nil_l in Heq. injection Heq as -> Heq.
    destruct (digits_dash_inj ds1 ds2 a b Hds1 Hds2 Heq) as [-> ->].
    split; [|reflexivity]. apply pretty_Z_inj. now rewrite E1, E2.
Qed.

Lemma digitChar_inj (n m : Z) :
  (0 <= n <= 9)%Z -> (0 <= m <= 9)%Z -> digitChar n = digitChar m -> n = m.
Proof.
  intros Hn Hm H. apply (f_equal Ascii.nat_of_ascii) in H.
  unfold digitChar in H. rewrite !Ascii.nat_ascii_embedding in H by lia.
  lia.
Qed.

Lemma twoDigits_app_inj (n m : Z) (a b : string) :
  (0 <= n <= 99)%Z -> (0 <= m <= 99)%Z ->
  twoDigits n +:+ a = twoDigits m +:+ b -> n = m /\ a = b.
Proof.
  intros Hn Hm H. unfold twoDigits in H.
  rewrite !string_app_cons, !string_app_nil_l in H.
  injection H as H1 H2 ->. split; [|reflexivity].
  apply digitChar_inj in H1; [|Z.div_mod_to_equations; lia..].
  apply digitChar_inj in H2; [|Z.div_mod_to_equations; lia..].
  Z.div_mod_to_equations. lia.
Qed.

Lemma twoDigits_dash_inj (n m : Z) (a b : string) :
  (0 <= n <= 99)%Z -> (0 <= m <= 99)%Z ->
  twoDigits n +:+ String "-" a = twoDigits m +:+ String "-" b ->
  n = m /\ a = b.
Proof.
  intros Hn Hm H. apply twoDigits_app_inj in H as [-> H]; [|lia..].
  now injection H.
Qed.

Lemma prefix_app_shape (y t1 t2 t3 t4 a : string) :
  (y +:+ String "-" (t1 +:+ String "-" (t2 +:+ String "-"
     (t3 +:+ String "-" t4)))) +:+ a
  = y +:+ String "-" (t1 +:+ String "-" (t2 +:+ String "-"
      (t3 +:+ String "-" (t4 +:+ a)))).
Proof.
  now repeat (rewrite string_app_assoc || rewrite string_app_cons).
Qed.

(** The fields of a calendar instant and the prefix written from them. *)
Lemma formatDatePrefix_instant (date : JS.Date) :
  JS.isInstant date = true ->
  exists y m d h mi : Z,
    (JS.getFullYear date = JS.Int y /\ JS.getMonth date = JS.Int m /\
     JS.getDate date = JS.Int d /\ JS.getHours date = JS.Int h /\
     JS.getMinutes date = JS.Int mi) /\
    ((-271821 <= y <= 275760)%Z /\ (0 <= m <= 11)%Z /\ (1 <= d <= 31)%Z /\
     (0 <= h <= 23)%Z /\ (0 <= mi <= 59)%Z) /\
    formatDatePrefix date
    = pretty y +:+ String "-" (twoDigits (m + 1) +:+ String "-"
        (twoDigits d +:+ String "-" (twoDigits h +:+ String "-"
           (twoDigits mi)))).
Proof.
  unfold JS.isInstant. rewrite !andb_true_iff.
  intros [[[[[[Hy Hm] Hd] Hh] Hmi] _] _].
  apply inRange_Int in Hy as (y & Ey & Hy), Hm as (m & Em & Hm),
    Hd as (d & Ed & Hd), Hh as (h & Eh & Hh), Hmi as (mi & Emi & Hmi).
  exists y, m, d, h, mi. split; [auto|]. split; [auto|].
  unfold formatDatePrefix. cbv zeta. rewrite Ey, Em, Ed, Eh, Emi.
  cbn [JS.add JS.toString]. rewrite !pad_twoDigits by lia. reflexivity.
Qed.

(** A date prefix followed by anything is read back unambiguously. *)
Lemma formatDatePrefix_app_inj (d1 d2 : JS.Date) (a b : string) :
  JS.isInstant d1 = true -> JS.isInstant d2 = true ->
  formatDatePrefix d1 +:+ a = formatDatePrefix d2 +:+ b ->
  (JS.getFullYear d1 = JS.getFullYear d2 /\
   JS.getMonth d1 = JS.getMonth d2 /\
   JS.getDate d1 = JS.getDate d2 /\
   JS.getHours d1 = JS.getHours d2 /\
   JS.getMinutes d1 = JS.getMinutes d2) /\ a = b.
Proof.
  intros H1 H2 Heq.
  destruct (formatDatePrefix_instant d1 H1)
    as (y1 & m1 & dd1 & h1 & mi1 & (Ey1 & Em1 & Ed1 & Eh1 & Emi1)
        & (Ry1 & Rm1 & Rd1 & Rh1 & Rmi1) & F1).
  destruct (formatDatePrefix_instant d2 H2)
    as (y2 & m2 & dd2 & h2 & mi2 & (Ey2 & Em2 & Ed2 & Eh2 & Emi2)
        & (Ry2 & Rm2 & Rd2 & Rh2 & Rmi2) & F2).
  rewrite F1, F2, !prefix_app_shape in Heq.
  apply pretty_Z_dash_inj in Heq as [-> Heq].
  apply twoDigits_dash_inj in Heq as [Hm Heq]; [|lia..].
  apply twoDigits_dash_inj in Heq as [-> Heq]; [|lia..].
  apply twoDigits_dash_inj in Heq as [-> Heq]; [|lia..].
  apply twoDigits_app_inj in Heq as [-> ->]; [|lia..].
  assert (m1 = m2) as -> by lia.
  rewrite Ey1, Ey2, Em1, Em2, Ed1, Ed2, Eh1, Eh2, Emi1, Emi2.
  repeat split; reflexivity.
Qed.

Lemma pretty_Z_head (y : Z) :
  exists c s, pretty y = String c s /\ (isDigit c = true \/ c = "-"%char).
Proof.
  destruct y as [|p|p].
  - exists "0"%char, "". auto.
  - destruct (pretty_N_digits (Npos p)) as (c & ds & E & Hc & _).
    exists c, ds. auto.
  - exists "-"%char, (pretty (Npos p)). auto.
Qed.

(** X1: two calendar instants get the same date prefix exactly when they
    agree on year, month, day, hour and minute: the prefix of one minute is
    never the prefix of another. *)
Theorem formatDatePrefix_injective (d1 d2 : JS.Date) :
  JS.isInstant d1 = true -> JS.isInstant d2 = true ->
  (formatDatePrefix d1 = formatDatePrefix d2
   <-> JS.getFullYear d1 = JS.getFullYear d2 /\
       JS.getMonth d1 = JS.getMonth d2 /\
       JS.getDate d1 = JS.getDate d2 /\
       JS.getHours d1 = JS.getHours d2 /\
       JS.getMinutes d1 = JS.getMinutes d2).
Proof.
  intros H1 H2. split.
  - intros Heq.
    apply (formatDatePrefix_app_inj d1 d2 "" "" H1 H2).
    now rewrite Heq.
  - intros (Hy & Hm & Hd & Hh & Hmi). unfold formatDatePrefix.
    now rewrite Hy, Hm, Hd, Hh, Hmi.
Qed.

(** X2: for calendar instants, two posts get the same folder name exactly
    when they have the same kind prefix, fall in the same minute and have
    the same title; since BlogPost and Photos both have the empty prefix,
    posts of these two kinds with one title made in one minute share a
    folder name. *)
Theorem folderName_injective (k1 k2 t1 t2 : string) (d1 d2 : JS.Date) :
  JS.isInstant d1 = true -> JS.isInstant d2 = true ->
  (folderName k1 d1 t1 = folderName k2 d2 t2
   <-> kindPrefix k1 = kindPrefix k2 /\
       (JS.getFullYear d1 = JS.getFullYear d2 /\
        JS.getMonth d1 = JS.getMonth d2 /\
        JS.getDate d1 = JS.getDate d2 /\
        JS.getHours d1 = JS.getHours d2 /\
        JS.getMinutes d1 = JS.getMinutes d2) /\
       t1 = t2) /\
  folderName (PostKind_value BlogPost) d1 t1
  = folderName (PostKind_value Photos) d1 t1.
Proof.
  intros H1 H2. split; [|reflexivity]. split.
  - intros Heq. unfold folderName in Heq. cbv zeta in Heq.
    apply (inj (String.append "content/posts/")) in Heq.
    assert (Hhead : forall d rest x,
               JS.isInstant d = true ->
               formatDatePrefix d +:+ rest <> String "n" x).
    { intros d rest x Hd Hn.
      destruct (formatDatePrefix_instant d Hd)
        as (y & m & dd & h & mi & _ & _ & F).
      destruct (pretty_Z_head y) as (c & s & E & Hc).
      rewrite F, E, !string_app_cons in Hn. injection Hn as -> _.
      destruct Hc as [Hc | Hc]; discriminate. }
    assert (Hsame : formatDatePrefix d1 +:+ "-" +:+ t1
                    = formatDatePrefix d2 +:+ "-" +:+ t2 ->
                    (JS.getFullYear d1 = JS.getFullYear d2 /\
                     JS.getMonth d1 = JS.getMonth d2 /\
                     JS.getDate d1 = JS.getDate d2 /\
                     JS.getHours d1 = JS.getHours d2 /\
                     JS.getMinutes d1 = JS.getMinutes d2) /\ t1 = t2).
    { intros E. apply formatDatePrefix_app_inj in E as [Hf E]; [|done..].
      split; [exact Hf|]. now injection E. }
    unfold kindPrefix in *.
    destruct (String.eqb k1 _), (String.eqb k2 _).
    + apply (inj (String.append "note-")) in Heq.
      split; [reflexivity | now apply Hsame].
    + exfalso. symmetry in Heq. rewrite string_app_nil_l in Heq.
      now apply Hhead in Heq.
    + exfalso. rewrite string_app_nil_l in Heq. now apply Hhead in Heq.
    + rewrite !string_app_nil_l in Heq.
      split; [reflexivity | now apply Hsame].
  - intros (Hk & (Hy & Hm & Hd & Hh & Hmi) & ->). unfold folderName.
    cbv zeta. rewrite Hk. unfold formatDatePrefix.
    now rewrite Hy, Hm, Hd, Hh, Hmi.
Qed.

(** ** The date prefix as a sort key *)

Lemma compare_digitChar (a b : Z) :
  (0 <= a <= 9)%Z -> (0 <= b <= 9)%Z ->
  Ascii.compare (digitChar a) (digitChar b) = (a ?= b)%Z.
Proof.
  intros Ha Hb.
  assert (a = 0 \/ a = 1 \/ a = 2 \/ a = 3 \/ a = 4 \/ a = 5 \/ a = 6
          \/ a = 7 \/ a = 8 \/ a = 9)%Z
    as [->|[->|[->|[->|[->|[->|[->|[->|[->| ->]]]]]]]]] by lia;
  assert (b = 0 \/ b = 1 \/ b = 2 \/ b = 3 \/ b = 4 \/ b = 5 \/ b = 6
          \/ b = 7 \/ b = 8 \/ b = 9)%Z
    as [->|[->|[->|[->|[->|[->|[->|[->|[->| ->]]]]]]]]] by lia;
  reflexivity.
Qed.

(** Comparing quotient then remainder is comparing the numbers. *)
Lemma compare_div_mod (base n1 n2 : Z) (rest : comparison) :
  (0 < base)%Z ->
  match (n1 `div` base ?= n2 `div` base)%Z with
  | Eq => match (n1 `mod` base ?= n2 `mod` base)%Z with
          | Eq => rest
          | c => c
          end
  | c => c
  end
  = match (n1 ?= n2)%Z with
    | Eq => rest
    | c => c
    end.
Proof.
  intros Hb.
  destruct (Z.compare_spec (n1 `div` base) (n2 `div` base)),
    (Z.compare_spec (n1 `mod` base) (n2 `mod` base)),
    (Z.compare_spec n1 n2);
    try reflexivity; exfalso; Z.div_mod_to_equations; nia.
Qed.

Lemma compare_twoDigits_app (a b : Z) (s t : string) :
  (0 <= a <= 99)%Z -> (0 <= b <= 99)%Z ->
  String.compare (twoDigits a +:+ s) (twoDigits b +:+ t)
  = match (a ?= b)%Z with
    | Eq => String.compare s t
    | c => c
    end.
Proof.
  intros Ha Hb. unfold twoDigits.
  rewrite !string_app_cons, !string_app_nil_l. cbn [String.compare].
  rewrite !compare_digitChar by (Z.div_mod_to_equations; lia).
  now rewrite <- (compare_div_mod 10 a b) by lia.
Qed.

Lemma compare_dash (s t : string) :
  String.compare (String "-" s) (String "-" t) = String.compare s t.
Proof. reflexivity. Qed.

(** A year from 1000 to 9999 is written on four digits. *)
Lemma pretty_fourDigits (y : Z) :
  (1000 <= y <= 9999)%Z ->
  pretty y = twoDigits (y `div` 100) +:+ twoDigits (y `mod` 100).
Proof.
  intros Hy.
  assert (Hall : forallb
                   (fun q =>
                      forallb
                        (fun r =>
                           String.eqb
                             (pretty (100 * Z.of_nat q + Z.of_nat r)%Z)
                             (twoDigits (Z.of_nat q)
                                +:+ twoDigits (Z.of_nat r)))
                        (seq 0 100))
                   (seq 10 90) = true) by (vm_compute; reflexivity).
  rewrite forallb_forall in Hall.
  specialize (Hall (Z.to_nat (y `div` 100))).
  rewrite forallb_forall in Hall.
  specialize (Hall ltac:(apply in_seq; Z.div_mod_to_equations; lia)
                   (Z.to_nat (y `mod` 100))
                   ltac:(apply in_seq; Z.div_mod_to_equations; lia)).
  rewrite !Z2Nat.id in Hall by (Z.div_mod_to_equations; lia).
  apply String.eqb_eq in Hall. rewrite <- Hall. f_equal.
  Z.div_mod_to_equations. lia.
Qed.

Lemma string_app_nil_r (a : string) : a +:+ "" = a.
Proof.
  induction a as [|x a IH]; [reflexivity|].
  now rewrite string_app_cons, IH.
Qed.

Lemma twoDigits_length (n : Z) : String.length (twoDigits n) = 2.
Proof. reflexivity. Qed.

(** X3: the date prefix of a calendar instant is the year's decimal form
    followed by twelve characters; with a year from 1000 to 9999 it is
    exactly sixteen characters long. *)
Theorem formatDatePrefix_length (date : JS.Date) :
  JS.isInstant date = true ->
  String.length (formatDatePrefix date)
  = String.length (JS.toString (JS.getFullYear date)) + 12 /\
  (hasFourDigitYear date = true ->
   String.length (formatDatePrefix date) = 16).
Proof.
  intros Hd.
  destruct (formatDatePrefix_instant date Hd)
    as (y & m & dd & h & mi & (Ey & _) & _ & F).
  assert (Hlen : String.length (formatDatePrefix date)
                 = String.length (pretty y) + 12).
  { rewrite F.
    repeat (rewrite string_app_length || cbn [String.length]
            || rewrite twoDigits_length).
    lia. }
  split.
  - now rewrite Ey.
  - unfold hasFourDigitYear. rewrite Ey. cbn [JS.inRange].
    rewrite andb_true_iff, !Z.leb_le. intros Hy.
    rewrite Hlen, pretty_fourDigits, string_app_length, !twoDigits_length
      by lia.
    reflexivity.
Qed.

Lemma compare_app_same (p a b : string) :
  String.compare (p +:+ a) (p +:+ b) = String.compare a b.
Proof.
  induction p as [|c p IH]; [reflexivity|].
  rewrite !string_app_cons. cbn [String.compare].
  unfold Ascii.compare. now rewrite N.compare_refl.
Qed.

Lemma compare_n_digitChar (x : Z) :
  (0 <= x <= 9)%Z -> Ascii.compare "n" (digitChar x) = Gt.
Proof.
  intros Hx.
  assert (x = 0 \/ x = 1 \/ x = 2 \/ x = 3 \/ x = 4 \/ x = 5 \/ x = 6
          \/ x = 7 \/ x = 8 \/ x = 9)%Z
    as [->|[->|[->|[->|[->|[->|[->|[->|[->| ->]]]]]]]]] by lia;
  reflexivity.
Qed.

(** Two date prefixes, each followed by some text, compare by their fields
    first and by the texts second. *)
Lemma formatDatePrefix_compare_app (d1 d2 : JS.Date) (a b : string) :
  JS.isInstant d1 = true -> JS.isInstant d2 = true ->
  hasFourDigitYear d1 = true -> hasFourDigitYear d2 = true ->
  String.compare (formatDatePrefix d1 +:+ a) (formatDatePrefix d2 +:+ b)
  = match compareFields (minuteOf d1) (minuteOf d2) with
    | Eq => String.compare a b
    | c => c
    end.
Proof.
  intros H1 H2 Y1 Y2.
  destruct (formatDatePrefix_instant d1 H1)
    as (y1 & m1 & dd1 & h1 & mi1 & (Ey1 & Em1 & Ed1 & Eh1 & Emi1)
        & (_ & Rm1 & Rd1 & Rh1 & Rmi1) & F1).
  destruct (formatDatePrefix_instant d2 H2)
    as (y2 & m2 & dd2 & h2 & mi2 & (Ey2 & Em2 & Ed2 & Eh2 & Emi2)
        & (_ & Rm2 & Rd2 & Rh2 & Rmi2) & F2).
  unfold hasFourDigitYear in Y1, Y2. rewrite Ey1 in Y1. rewrite Ey2 in Y2.
  cbn [JS.inRange] in Y1, Y2.
  rewrite andb_true_iff, !Z.leb_le in Y1, Y2.
  unfold minuteOf.
  rewrite Ey1, Ey2, Em1, Em2, Ed1, Ed2, Eh1, Eh2, Emi1, Emi2.
  cbn [fieldValue compareFields].
  rewrite F1, F2, !prefix_app_shape, !pretty_fourDigits, !string_app_assoc
    by lia.
  rewrite compare_twoDigits_app by (Z.div_mod_to_equations; lia).
  rewrite compare_twoDigits_app by (Z.div_mod_to_equations; lia).
  rewrite compare_div_mod by lia.
  rewrite compare_dash, compare_twoDigits_app by lia.
  rewrite compare_dash, compare_twoDigits_app by lia.
  rewrite compare_dash, compare_twoDigits_app by lia.
  rewrite compare_dash, compare_twoDigits_app by lia.
  rewrite !(Z.add_comm _ 1), Z.add_compare_mono_l.
  destruct (y1 ?= y2)%Z, (m1 ?= m2)%Z, (dd1 ?= dd2)%Z, (h1 ?= h2)%Z,
    (mi1 ?= mi2)%Z; reflexivity.
Qed.

(** The first character of the date prefix of a four-digit year is a
    digit, which every kind prefix "note-" compares greater than. *)
Lemma compare_note_prefix (d : JS.Date) (a b : string) :
  JS.isInstant d = true -> hasFourDigitYear d = true ->
  String.compare ("note-" +:+ a) (formatDatePrefix d +:+ b) = Gt.
Proof.
  intros Hd Hy.
  destruct (formatDatePrefix_instant d Hd)
    as (y & m & dd & h & mi & (Ey & _) & _ & F).
  unfold hasFourDigitYear in Hy. rewrite Ey in Hy. cbn [JS.inRange] in Hy.
  rewrite andb_true_iff, !Z.leb_le in Hy.
  rewrite F, pretty_fourDigits by lia.
  unfold twoDigits at 1. rewrite !string_app_cons. cbn [String.compare].
  now rewrite compare_n_digitChar by (Z.div_mod_to_equations; lia).
Qed.

(** X4: for dates with in-range fields and years from 1000 to 9999,
    comparing two date prefixes character by character orders them as the
    lists (year, month, day, hour, minute) of the fields the local getters
    returned; two folder names with equal kind prefixes compare by those
    fields first and by title second; and a folder name with the prefix
    "note-" compares greater than every folder name without kind prefix,
    whatever the two dates. *)
Theorem formatDatePrefix_sortable (d1 d2 : JS.Date) :
  JS.isInstant d1 = true -> JS.isInstant d2 = true ->
  hasFourDigitYear d1 = true -> hasFourDigitYear d2 = true ->
  String.compare (formatDatePrefix d1) (formatDatePrefix d2)
  = compareFields (minuteOf d1) (minuteOf d2) /\
  (forall k1 k2 t1 t2,
     kindPrefix k1 = kindPrefix k2 ->
     String.compare (folderName k1 d1 t1) (folderName k2 d2 t2)
     = match compareFields (minuteOf d1) (minuteOf d2) with
       | Eq => String.compare t1 t2
       | c => c
       end) /\
  (forall k1 k2 t1 t2,
     kindPrefix k1 = "note-" -> kindPrefix k2 = "" ->
     String.compare (folderName k1 d1 t1) (folderName k2 d2 t2) = Gt).
Proof.
  intros H1 H2 Y1 Y2. split; [|split].
  - rewrite <- (string_app_nil_r (formatDatePrefix d1)).
    rewrite <- (string_app_nil_r (formatDatePrefix d2)).
    rewrite (formatDatePrefix_compare_app d1 d2 "" "" H1 H2 Y1 Y2).
    now destruct (compareFields _ _).
  - intros k1 k2 t1 t2 Hk. unfold folderName. cbv zeta.
    rewrite Hk, !compare_app_same.
    rewrite (formatDatePrefix_compare_app d1 d2 _ _ H1 H2 Y1 Y2).
    reflexivity.
  - intros k1 k2 t1 t2 Hk1 Hk2. unfold folderName. cbv zeta.
    rewrite Hk1, Hk2, compare_app_same, string_app_nil_l.
    apply (compare_note_prefix d2 _ _ H2 Y2).
Qed.

(** Outside that range of years the order can fail: the year 999 sorts
    after the year 1000. *)
Example formatDatePrefix_unsorted_three_digit_year :
  String.compare
    (formatDatePrefix
       (JS.mkDate (JS.Int 999) (JS.Int 0) (JS.Int 1) (JS.Int 0) (JS.Int 0)
                  (JS.Int 0) (JS.Int 0)))
    (formatDatePrefix
       (JS.mkDate (JS.Int 1000) (JS.Int 0) (JS.Int 1) (JS.Int 0) (JS.Int 0)
                  (JS.Int 0) (JS.Int 0)))
  = Gt.
Proof. vm_compute. reflexivity. Qed.

(** ** Padding *)

Lemma truncatedFiller_zeros n (rest : string) :
  allZeros rest = true ->
  allZeros (JS.truncatedFiller n rest "0") = true /\
  String.length (JS.truncatedFiller n rest "0") = n.
Proof.
  revert rest. induction n as [|n IH]; intros rest Hrest; [split; reflexivity|].
  cbn [JS.truncatedFiller]. destruct rest as [|c rest].
  - destruct (IH "" eq_refl) as [Hz Hl]. cbn [allZeros String.length].
    now rewrite Hz, Hl.
  - cbn [allZeros] in Hrest. apply andb_true_iff in Hrest as [Hc Hrest].
    destruct (IH rest Hrest) as [Hz Hl]. cbn [allZeros String.length].
    now rewrite Hc, Hz, Hl.
Qed.

(** X5: [pad] only ever puts zeros in front of the number's decimal form and
    never shortens it: the result is at least two characters long, and a
    form of two characters or more (a number above 99, a negative number,
    [NaN]) is returned as it is. *)
Theorem pad_only_prepends_zeros (v : JS.number) :
  (exists zeros,
     pad v = zeros +:+ JS.toString v /\ allZeros zeros = true) /\
  String.length (pad v) = Nat.max 2 (String.length (JS.toString v)) /\
  (2 <= String.length (JS.toString v) -> pad v = JS.toString v).
Proof.
  unfold pad, JS.padStart. cbv zeta.
  destruct (2 <=? String.length (JS.toString v))%nat eqn:Hlen.
  - apply Nat.leb_le in Hlen. split; [|split].
    + exists "". auto.
    + lia.
    + reflexivity.
  - apply Nat.leb_gt in Hlen. cbn [String.eqb].
    destruct (truncatedFiller_zeros
                (2 - String.length (JS.toString v)) "0" eq_refl)
      as [Hz Hl].
    split; [|split].
    + eexists. split; [reflexivity | exact Hz].
    + rewrite string_app_length, Hl. lia.
    + lia.
Qed.

(** ** The folder name as a path *)

Lemma pathSegments_slash (a b : string) :
  pathSegments (a +:+ String "/" b) = pathSegments a ++ pathSegments b.
Proof.
  induction a as [|c a IH]; [reflexivity|].
  rewrite string_app_cons. cbn [pathSegments]. rewrite IH.
  destruct (Ascii.eqb c "/"); [reflexivity|].
  destruct (pathSegments a) as [|seg segs] eqn:Ha; [|reflexivity].
  pose proof (pathSegments_length a) as Hl. rewrite Ha in Hl. discriminate.
Qed.

Lemma pathSegments_no_slash (a b : string) :
  countChar "/"%char a = 0 ->
  exists seg segs,
    pathSegments b = seg :: segs /\
    pathSegments (a +:+ b) = (a +:+ seg) :: segs.
Proof.
  intros Ha. induction a as [|c a IH].
  - destruct (pathSegments b) as [|seg segs] eqn:Hb.
    + pose proof (pathSegments_length b) as Hl. rewrite Hb in Hl.
      discriminate.
    + exists seg, segs. rewrite !string_app_nil_l. auto.
  - cbn [countChar] in Ha.
    destruct (Ascii.eqb c "/") eqn:Hc; [discriminate|].
    destruct (IH Ha) as (seg & segs & Hb & Hab).
    exists seg, segs. split; [exact Hb|].
    rewrite !string_app_cons. cbn [pathSegments]. now rewrite Hc, Hab.
Qed.

(** X6: the folder name splits at its separators into "content", "posts"
    and the post's own segments: the kind prefix, date prefix and "-"
    followed by the title's first segment, then the title's other segments
    unchanged.  A title without "/" gives exactly three segments, the third
    being {kindPrefix}{datePrefix}-{title}. *)
Theorem folderName_segments (postKind postTitle : string) (date : JS.Date) :
  (exists seg segs,
     pathSegments postTitle = seg :: segs /\
     pathSegments (folderName postKind date postTitle)
     = ["content"; "posts";
        kindPrefix postKind +:+ formatDatePrefix date +:+ "-" +:+ seg]
         ++ segs) /\
  (countChar "/"%char postTitle = 0 ->
   pathSegments (folderName postKind date postTitle)
   = ["content"; "posts";
      kindPrefix postKind +:+ formatDatePrefix date +:+ "-" +:+ postTitle]).
Proof.
  assert (Hstem : countChar "/"%char
                    (kindPrefix postKind +:+ formatDatePrefix date +:+ "-")
                  = 0).
  { now rewrite !countChar_app, countChar_kindPrefix,
      countChar_formatDatePrefix. }
  assert (Hname : forall t,
             folderName postKind date t
             = "content" +:+ String "/" ("posts" +:+ String "/"
                 ((kindPrefix postKind +:+ formatDatePrefix date +:+ "-")
                    +:+ t))).
  { intros t. unfold folderName. cbv zeta.
    now rewrite !string_app_assoc. }
  assert (Hsegs : exists seg segs,
             pathSegments postTitle = seg :: segs /\
             pathSegments (folderName postKind date postTitle)
             = ["content"; "posts";
                kindPrefix postKind +:+ formatDatePrefix date +:+ "-"
                  +:+ seg] ++ segs).
  { destruct (pathSegments_no_slash _ postTitle Hstem)
      as (seg & segs & Ht & Hst).
    exists seg, segs. split; [exact Ht|].
    rewrite Hname, !pathSegments_slash, Hst, !string_app_assoc.
    reflexivity. }
  split; [exact Hsegs|].
  intros Hno. destruct Hsegs as (seg & segs & Ht & ->).
  destruct (pathSegments_no_slash postTitle "" Hno)
    as (seg' & segs' & He & Ht').
  rewrite string_app_nil_r in Ht'. injection He as <- <-.
  rewrite string_app_nil_r in Ht'. rewrite Ht' in Ht.
  now injection Ht as <- <-.
Qed.

(** ** The command after the folder is created *)

(** What the command requests once the vault has created the folder. *)
Lemma run_after_folder toLowerCase (host : Host)
    (postKind postTitle : string) (folder : TFolder) :
  postKindPromise toLowerCase host = JS.Resolved postKind ->
  postTitlePromise host = JS.Resolved postTitle ->
  vault_createFolder host (folderName postKind (now host) postTitle)
  = inr folder ->
  create_new_post toLowerCase host
  = (promptCalls postKind postTitle
       ++ [CreateFolder (folderName postKind (now host) postTitle);
           NoticeShown (folder_path folder);
           Create (folder_path folder +:+ "/index.md") ""]
       ++ match vault_create host (folder_path folder +:+ "/index.md") ""
          with
          | inl e => [NoticeShown e]
          | inr file =>
              [GetLeaf false; OpenFile file]
                ++ match leaf_openFile host file with
                   | inl e => [NoticeShown e]
                   | inr _ => []
                   end
          end,
     Returned tt).
Proof.
  intros Hk Ht Hf. unfold create_new_post. rewrite Hk, Ht.
  cbn. rewrite Hf. cbn.
  destruct (vault_create host _ _) as [e|file]; cbn; [reflexivity|].
  destruct (leaf_openFile host file) as [e|[]]; reflexivity.
Qed.

(** Whenever both prompts resolve the command returns. *)
Lemma run_resolved_returns toLowerCase (host : Host)
    (postKind postTitle : string) :
  postKindPromise toLowerCase host = JS.Resolved postKind ->
  postTitlePromise host = JS.Resolved postTitle ->
  exists rest,
    create_new_post toLowerCase host
    = (promptCalls postKind postTitle
         ++ CreateFolder (folderName postKind (now host) postTitle) :: rest,
       Returned tt).
Proof.
  intros Hk Ht.
  destruct (vault_createFolder host
              (folderName postKind (now host) postTitle))
    as [e|folder] eqn:Hf.
  - rewrite (run_folder_failed toLowerCase host postKind Hk postTitle Ht e Hf).
    eexists. reflexivity.
  - rewrite (run_after_folder toLowerCase host postKind postTitle folder
               Hk Ht Hf).
    eexists. reflexivity.
Qed.

(** X7: the command never ends by throwing: whatever the vault and the
    leaf answer, it returns normally when both prompts resolved, and it
    stays suspended exactly when one of them never resolves. *)
Theorem create_new_post_outcome toLowerCase (host : Host) :
  (forall e, (create_new_post toLowerCase host).2 <> Threw e) /\
  ((create_new_post toLowerCase host).2 = Returned tt
   <-> (exists postKind postTitle,
          postKindPromise toLowerCase host = JS.Resolved postKind /\
          postTitlePromise host = JS.Resolved postTitle)) /\
  ((create_new_post toLowerCase host).2 = Suspended
   <-> postKindPromise toLowerCase host = JS.Pending \/
       postTitlePromise host = JS.Pending).
Proof.
  destruct (postKindPromise toLowerCase host) as [|postKind] eqn:Hk.
  - rewrite (run_chooser_pending toLowerCase host Hk). cbn.
    split; [discriminate|]. split; split; try discriminate; auto.
    intros (k & t & Hk' & _). discriminate.
  - destruct (postTitlePromise host) as [|postTitle] eqn:Ht.
    + rewrite (run_title_pending toLowerCase host postKind Hk Ht). cbn.
      split; [discriminate|]. split; split; try discriminate; auto.
      intros (k & t & _ & Ht'). discriminate.
    + destruct (run_resolved_returns toLowerCase host postKind postTitle
                  Hk Ht) as [rest ->].
      cbn. split; [discriminate|]. split; split; try discriminate.
      * intros _. eauto.
      * reflexivity.
      * intros [H|H]; discriminate.
Qed.

(** X8: nothing is requested from the vault or the workspace unless both
    prompts resolve: a run makes no storage or navigation request exactly
    when one of the prompts never resolves, and otherwise its first such
    request is the folder creation. *)
Theorem create_new_post_requests_after_prompts toLowerCase (host : Host) :
  (List.filter isStorageOrNavigation (create_new_post toLowerCase host).1
   = []
   <-> postKindPromise toLowerCase host = JS.Pending \/
       postTitlePromise host = JS.Pending) /\
  (forall postKind postTitle,
     postKindPromise toLowerCase host = JS.Resolved postKind ->
     postTitlePromise host = JS.Resolved postTitle ->
     exists rest,
       List.filter isStorageOrNavigation
         (create_new_post toLowerCase host).1
       = CreateFolder (folderName postKind (now host) postTitle) :: rest).
Proof.
  assert (Hboth : forall postKind postTitle,
             postKindPromise toLowerCase host = JS.Resolved postKind ->
             postTitlePromise host = JS.Resolved postTitle ->
             exists rest,
               List.filter isStorageOrNavigation
                 (create_new_post toLowerCase host).1
               = CreateFolder (folderName postKind (now host) postTitle)
                   :: rest).
  { intros postKind postTitle Hk Ht.
    destruct (run_resolved_returns toLowerCase host postKind postTitle
                Hk Ht) as [rest ->].
    cbn. eexists. reflexivity. }
  split; [|exact Hboth].
  destruct (postKindPromise toLowerCase host) as [|postKind] eqn:Hk.
  - rewrite (run_chooser_pending toLowerCase host Hk). cbn. tauto.
  - destruct (postTitlePromise host) as [|postTitle] eqn:Ht.
    + rewrite (run_title_pending toLowerCase host postKind Hk Ht). cbn.
      tauto.
    + destruct (Hboth postKind postTitle eq_refl eq_refl) as [rest ->].
      split; [discriminate | intros [H|H]; discriminate].
Qed.

(** X9: when the vault creates the folder but refuses the file, the command
    shows the failure in a notice and returns; the folder it created is
    left in place (no further storage request follows the refused file
    creation) and nothing is opened. *)
Theorem create_new_post_file_failure toLowerCase (host : Host)
    (postKind postTitle e : string) (folder : TFolder) :
  postKindPromise toLowerCase host = JS.Resolved postKind ->
  postTitlePromise host = JS.Resolved postTitle ->
  vault_createFolder host (folderName postKind (now host) postTitle)
  = inr folder ->
  vault_create host (folder_path folder +:+ "/index.md") "" = inl e ->
  create_new_post toLowerCase host
  = ([ModalOpen KindChooser; NoticeShown postKind;
      ModalOpen TitlePrompt; NoticeShown postTitle;
      CreateFolder (folderName postKind (now host) postTitle);
      NoticeShown (folder_path folder);
      Create (folder_path folder +:+ "/index.md") "";
      NoticeShown e],
     Returned tt) /\
  List.filter isStorageOrNavigation (create_new_post toLowerCase host).1
  = [CreateFolder (folderName postKind (now host) postTitle);
     Create (folder_path folder +:+ "/index.md") ""].
Proof.
  intros Hk Ht Hf Hc.
  rewrite (run_after_folder toLowerCase host postKind postTitle folder
             Hk Ht Hf), Hc.
  split; reflexivity.
Qed.

(** X10: when the folder and the file are created but the leaf fails to
    open the file, the command shows that failure in a notice and returns;
    the folder and the file stay. *)
Theorem create_new_post_open_failure toLowerCase (host : Host)
    (postKind postTitle e : string) (folder : TFolder) (file : TFile) :
  postKindPromise toLowerCase host = JS.Resolved postKind ->
  postTitlePromise host = JS.Resolved postTitle ->
  vault_createFolder host (folderName postKind (now host) postTitle)
  = inr folder ->
  vault_create host (folder_path folder +:+ "/index.md") "" = inr file ->
  leaf_openFile host file = inl e ->
  create_new_post toLowerCase host
  = ([ModalOpen KindChooser; NoticeShown postKind;
      ModalOpen TitlePrompt; NoticeShown postTitle;
      CreateFolder (folderName postKind (now host) postTitle);
      NoticeShown (folder_path folder);
      Create (folder_path folder +:+ "/index.md") "";
      GetLeaf false; OpenFile file;
      NoticeShown e],
     Returned tt).
Proof.
  intros Hk Ht Hf Hc Ho.
  rewrite (run_after_folder toLowerCase host postKind postTitle folder
             Hk Ht Hf), Hc, Ho.
  reflexivity.
Qed.

(** X11: when the vault and the leaf accept every request, the command
    creates the folder, creates an empty file named index.md under the path
    of the folder the vault returned, opens the file the vault returned in
    the current leaf ([getLeaf(false)]) and returns; it shows three
    notices, the kind, the title and the folder's path, and no other. *)
Theorem create_new_post_success toLowerCase (host : Host)
    (postKind postTitle : string) (folder : TFolder) (file : TFile) :
  postKindPromise toLowerCase host = JS.Resolved postKind ->
  postTitlePromise host = JS.Resolved postTitle ->
  vault_createFolder host (folderName postKind (now host) postTitle)
  = inr folder ->
  vault_create host (folder_path folder +:+ "/index.md") "" = inr file ->
  leaf_openFile host file = inr tt ->
  create_new_post toLowerCase host
  = ([ModalOpen KindChooser; NoticeShown postKind;
      ModalOpen TitlePrompt; NoticeShown postTitle;
      CreateFolder (folderName postKind (now host) postTitle);
      NoticeShown (folder_path folder);
      Create (folder_path folder +:+ "/index.md") "";
      GetLeaf false; OpenFile file],
     Returned tt) /\
  List.filter isNotice (create_new_post toLowerCase host).1
  = [NoticeShown postKind; NoticeShown postTitle;
     NoticeShown (folder_path folder)].
Proof.
  intros Hk Ht Hf Hc Ho.
  rewrite (run_after_folder toLowerCase host postKind postTitle folder
             Hk Ht Hf), Hc, Ho.
  split; reflexivity.
Qed.

(** ** The prompts under any sequence of user events *)

Lemma foldl_invariant {S E : Type} (step : S -> E -> S) (inv : S -> Prop) :
  (forall s ev, inv s -> inv (step s ev)) ->
  forall evs s, inv s -> inv (foldl step s evs).
Proof.
  intros Hstep evs. induction evs as [|ev evs IH]; intros s Hs; [exact Hs|].
  cbn [foldl]. apply IH, Hstep, Hs.
Qed.

(** X12: whatever the user does with the title prompt, it calls [onSubmit]
    at most once, is closed once it has, and the command's promise holds
    the submitted value from then on: the sequence can never receive two
    titles. *)
Theorem PostTitleModal_submits_at_most_once (evs : list TitleEvent) :
  (titleSubmitted (PostTitleModal_run evs) = [] /\
   promise_of_calls (titleSubmitted (PostTitleModal_run evs)) = JS.Pending)
  \/
  (exists title,
     titleSubmitted (PostTitleModal_run evs) = [title] /\
     titleOpen (PostTitleModal_run evs) = false /\
     promise_of_calls (titleSubmitted (PostTitleModal_run evs))
     = JS.Resolved title /\
     forall more,
       PostTitleModal_run (evs ++ more) = PostTitleModal_run evs).
Proof.
  assert (Hinv : titleSubmitted (PostTitleModal_run evs) = []
                 \/ exists title,
                      titleSubmitted (PostTitleModal_run evs) = [title]
                      /\ titleOpen (PostTitleModal_run evs) = false).
  { unfold PostTitleModal_run.
    apply (foldl_invariant PostTitleModal_handle
             (fun m => titleSubmitted m = []
                       \/ exists title, titleSubmitted m = [title]
                                        /\ titleOpen m = false));
      [|left; reflexivity].
    intros m ev Hm. cbv beta. unfold PostTitleModal_handle.
    destruct (titleOpen m) eqn:Hopen in |- *; [|exact Hm].
    destruct Hm as [Hm | (title & _ & Hclosed)]; [|congruence].
    destruct ev; cbn [titleSubmitted titleOpen]; rewrite ?Hm; eauto. }
  destruct Hinv as [Hnone | (title & Hone & Hclosed)].
  - left. now rewrite Hnone.
  - right. exists title. rewrite Hone. repeat split; try assumption.
    intros more. unfold PostTitleModal_run. rewrite foldl_app.
    now apply PostTitleModal_closed.
Qed.

Section Chooser.

Variable toLowerCase : string -> string.

Lemma PostKind_values_kind (postKind : string) :
  postKind ∈ PostKind_values <-> exists kind, postKind = PostKind_value kind.
Proof.
  unfold PostKind_values. rewrite list_elem_of_fmap. split.
  - intros (kind & -> & _). now exists kind.
  - intros (kind & ->). exists kind. split; [reflexivity|].
    destruct kind; set_solver.
Qed.

Lemma getSuggestions_kinds (query : string) :
  Forall (fun postKind => postKind ∈ PostKind_values)
         (getSuggestions toLowerCase query).
Proof.
  apply Forall_forall. intros postKind H.
  now apply filterCandidates_elem_of in H.
Qed.

Lemma PostKindChooserModal_closed (m : PostKindChooserModal)
    (evs : list ChooserEvent) :
  chooserOpen m = false ->
  foldl (PostKindChooserModal_handle toLowerCase) m evs = m.
Proof.
  intros Hm. induction evs as [|ev evs IH]; [reflexivity|].
  cbn [foldl]. unfold PostKindChooserModal_handle at 2. now rewrite Hm.
Qed.

Lemma PostKindChooserModal_typing (query : string) (calls : list string)
    (inputs : list ChooserEvent) :
  forallb isInput inputs = true ->
  foldl (PostKindChooserModal_handle toLowerCase)
        (mkChooser (getSuggestions toLowerCase query) true calls) inputs
  = mkChooser
      (getSuggestions toLowerCase
         (foldl (fun q ev => match ev with Input q' => q' | _ => q end)
                query inputs))
      true calls.
Proof.
  revert query. induction inputs as [|ev inputs IH]; intros query Hin;
    [reflexivity|].
  cbn [forallb] in Hin. apply andb_true_iff in Hin as [Hev Hin].
  destruct ev; try discriminate. cbn [foldl]. now apply IH.
Qed.

Lemma PostKindChooserModal_select_shown (m : PostKindChooserModal)
    (index : nat) (postKind : string) :
  chooserOpen m = true -> shown m !! index = Some postKind ->
  PostKindChooserModal_handle toLowerCase m (Select index)
  = mkChooser (shown m) false (chooserSubmitted m ++ [postKind]).
Proof.
  intros Hopen Hi. unfold PostKindChooserModal_handle.
  now rewrite Hopen, Hi.
Qed.

Lemma PostKindChooserModal_select_none (m : PostKindChooserModal)
    (index : nat) :
  chooserOpen m = true -> shown m !! index = None ->
  PostKindChooserModal_handle toLowerCase m (Select index) = m.
Proof.
  intros Hopen Hi. unfold PostKindChooserModal_handle.
  now rewrite Hopen, Hi.
Qed.

(** X13: whatever the user does with the chooser, it calls [onSubmit] at
    most once, with the value of one of the three post kinds, and is closed
    once it has; so the kind the command receives is always "blogpost",
    "note" or "photos". *)
Theorem PostKindChooserModal_submits_a_kind (evs : list ChooserEvent) :
  ((chooserSubmitted (PostKindChooserModal_run toLowerCase evs) = [] /\
    promise_of_calls
      (chooserSubmitted (PostKindChooserModal_run toLowerCase evs))
    = JS.Pending)
   \/
   (exists kind : PostKind,
      chooserSubmitted (PostKindChooserModal_run toLowerCase evs)
      = [PostKind_value kind] /\
      chooserOpen (PostKindChooserModal_run toLowerCase evs) = false /\
      promise_of_calls
        (chooserSubmitted (PostKindChooserModal_run toLowerCase evs))
      = JS.Resolved (PostKind_value kind))) /\
  (forall host postKind,
     postKindPromise toLowerCase host = JS.Resolved postKind ->
     postKind ∈ ["blogpost"; "note"; "photos"]).
Proof.
  assert (Hinv : forall evs,
             chooserSubmitted (PostKindChooserModal_run toLowerCase evs) = []
             \/ exists kind,
                  chooserSubmitted (PostKindChooserModal_run toLowerCase evs)
                  = [PostKind_value kind]
                  /\ chooserOpen (PostKindChooserModal_run toLowerCase evs)
                     = false).
  { intros evs'. unfold PostKindChooserModal_run.
    apply (foldl_invariant (PostKindChooserModal_handle toLowerCase)
             (fun m => Forall (fun k => k ∈ PostKind_values) (shown m)
                       /\ (chooserSubmitted m = []
                           \/ exists kind,
                                chooserSubmitted m = [PostKind_value kind]
                                /\ chooserOpen m = false)));
      [|split; [apply getSuggestions_kinds | left; reflexivity]].
    intros m ev [Hshown Hm]. cbv beta. unfold PostKindChooserModal_handle.
    destruct (chooserOpen m) eqn:Hopen in |- *; [|split; assumption].
    destruct Hm as [Hm | (kind & _ & Hclosed)]; [|congruence].
    destruct ev as [query|index|]; cbn [shown chooserSubmitted chooserOpen].
    - split; [apply getSuggestions_kinds | auto].
    - destruct (shown m !! index) as [postKind|] eqn:Hi;
        cbn [shown chooserSubmitted chooserOpen]; [|auto].
      split; [assumption|]. right.
      rewrite Forall_forall in Hshown.
      apply list_elem_of_lookup_2, Hshown, PostKind_values_kind in Hi
        as [kind ->].
      exists kind. now rewrite Hm.
    - auto. }
  split.
  - destruct (Hinv evs) as [Hnone | (kind & Hone & Hclosed)].
    + left. now rewrite Hnone.
    + right. exists kind. now rewrite Hone.
  - intros host postKind. unfold postKindPromise.
    destruct (Hinv (chooserUser host)) as [-> | (kind & -> & _)];
      [discriminate|].
    cbn. intros [= <-]. destruct kind; set_solver.
Qed.

(** X14: after any typing, selecting the suggestion shown at an index
    resolves the chooser with the suggestion the filter gives at that index
    for the last query typed; selecting an index at which nothing is shown
    (for a query that matches no kind, every index) does nothing. *)
Theorem PostKindChooserModal_selects_shown (inputs rest : list ChooserEvent)
    (index : nat) :
  forallb isInput inputs = true ->
  match getSuggestions toLowerCase (lastQuery inputs) !! index with
  | Some postKind =>
      chooserSubmitted
        (PostKindChooserModal_run toLowerCase
           (inputs ++ Select index :: rest))
      = [postKind] /\
      promise_of_calls
        (chooserSubmitted
           (PostKindChooserModal_run toLowerCase
              (inputs ++ Select index :: rest)))
      = JS.Resolved postKind
  | None =>
      PostKindChooserModal_run toLowerCase (inputs ++ Select index :: rest)
      = PostKindChooserModal_run toLowerCase (inputs ++ rest)
  end.
Proof.
  intros Hin. unfold PostKindChooserModal_run, PostKindChooserModal_new.
  rewrite !foldl_app, (PostKindChooserModal_typing "" [] inputs Hin).
  fold (lastQuery inputs). cbn [foldl].
  destruct (getSuggestions toLowerCase (lastQuery inputs) !! index)
    as [postKind|] eqn:Hi.
  - rewrite (PostKindChooserModal_select_shown
               (mkChooser (getSuggestions toLowerCase (lastQuery inputs))
                          true [])
               index postKind eq_refl Hi).
    rewrite !PostKindChooserModal_closed by reflexivity. split; reflexivity.
  - now rewrite (PostKindChooserModal_select_none
                   (mkChooser (getSuggestions toLowerCase (lastQuery inputs))
                              true [])
                   index eq_refl Hi).
Qed.

(** X15: if the user leaves the chooser without selecting, the command
    stays suspended after opening it: no notice, no second prompt and no
    request to the vault follow, whatever the user does afterwards. *)
Theorem create_new_post_chooser_dismissed (host : Host)
    (inputs rest : list ChooserEvent) :
  forallb isInput inputs = true ->
  chooserUser host = inputs ++ DismissChooser :: rest ->
  create_new_post toLowerCase host = ([ModalOpen KindChooser], Suspended).
Proof.
  intros Hin Hevs. apply run_chooser_pending.
  unfold postKindPromise, PostKindChooserModal_run,
    PostKindChooserModal_new.
  rewrite Hevs, foldl_app, (PostKindChooserModal_typing "" [] inputs Hin).
  cbn [foldl]. unfold PostKindChooserModal_handle at 2. cbn [chooserOpen].
  now rewrite PostKindChooserModal_closed.
Qed.

(** X16: if the user leaves the title prompt without pressing Submit, the
    command stays suspended after opening it: the title typed so far is
    dropped, and no folder is requested. *)
Theorem create_new_post_title_dismissed (host : Host) (postKind : string)
    (typed rest : list TitleEvent) :
  postKindPromise toLowerCase host = JS.Resolved postKind ->
  forallb isChange typed = true ->
  titleUser host = typed ++ DismissTitle :: rest ->
  create_new_post toLowerCase host
  = ([ModalOpen KindChooser; NoticeShown postKind; ModalOpen TitlePrompt],
     Suspended).
Proof.
  intros Hk Hty Hevs. apply (run_title_pending _ _ _ Hk).
  unfold postTitlePromise, PostTitleModal_run, PostTitleModal_new.
  rewrite Hevs, foldl_app, (PostTitleModal_typing "" [] typed Hty).
  cbn [foldl]. unfold PostTitleModal_handle at 2. cbn [titleOpen].
  now rewrite PostTitleModal_closed.
Qed.

(** ** More on the suggestions *)

Lemma includes_empty (s : string) : JS.includes s "" = true.
Proof. destruct s; reflexivity. Qed.

Lemma isSubstring_trans (a b c : string) :
  isSubstring a b -> isSubstring b c -> isSubstring a c.
Proof.
  intros (p1 & s1 & ->) (p2 & s2 & ->).
  exists (p2 +:+ p1), (s1 +:+ s2). now rewrite !string_app_assoc.
Qed.

(** X17: with a runtime that lowers the empty string to itself, the empty
    query matches every kind: the chooser opens showing "blogpost", "note"
    and "photos", in that order. *)
Theorem getSuggestions_empty_query :
  toLowerCase "" = "" ->
  getSuggestions toLowerCase "" = ["blogpost"; "note"; "photos"] /\
  shown (PostKindChooserModal_new toLowerCase)
  = ["blogpost"; "note"; "photos"].
Proof.
  intros Hlow. unfold PostKindChooserModal_new. cbn [shown].
  unfold getSuggestions, filterCandidates. rewrite Hlow.
  cbn [PostKind_values fmap list_fmap List.filter].
  now rewrite !includes_empty.
Qed.

(** X18: a query whose lowercased text contains the lowercased text of
    another query gets a subsequence of that other query's suggestions:
    typing more around a query never brings a suggestion back. *)
Theorem getSuggestions_narrowing (query1 query2 : string) :
  isSubstring (toLowerCase query1) (toLowerCase query2) ->
  sublist (getSuggestions toLowerCase query2)
          (getSuggestions toLowerCase query1) /\
  (forall candidates,
     sublist (filterCandidates toLowerCase candidates query2)
             (filterCandidates toLowerCase candidates query1)).
Proof.
  intros Hsub.
  assert (Hall : forall candidates,
             sublist (filterCandidates toLowerCase candidates query2)
                     (filterCandidates toLowerCase candidates query1)).
  { intros candidates. unfold filterCandidates.
    induction candidates as [|c candidates IH]; [constructor|].
    cbn [List.filter].
    destruct (JS.includes (toLowerCase c) (toLowerCase query2)) eqn:H2.
    - assert (H1 : JS.includes (toLowerCase c) (toLowerCase query1) = true).
      { apply includes_spec. apply includes_spec in H2.
        exact (isSubstring_trans _ _ _ Hsub H2). }
      rewrite H1. now constructor.
    - destruct (JS.includes (toLowerCase c) (toLowerCase query1));
        [now constructor | exact IH]. }
  split; [apply Hall | exact Hall].
Qed.

End Chooser.

(** ** More on the settings *)

(** X19: an edit in the settings tab sets "mySetting" to the text typed,
    leaves every other key of the settings alone and saves the whole
    record; after loading again the tab shows the text typed, and when the
    settings had no key "__proto__" (as is the case of every record
    [loadSettings] yields, and the edit keeps it so) loading again gives
    exactly the edited settings; after several edits the last one is what
    is kept and saved. *)
Theorem SampleSettingTab_onChange_persists (text : string)
    (plugin this' : MyPlugin) (disk : option (gmap string value)) :
  settings (SampleSettingTab_onChange text plugin disk).1 !! "mySetting"
  = Some (VString text) /\
  (forall key,
     key <> "mySetting" ->
     settings (SampleSettingTab_onChange text plugin disk).1 !! key
     = settings plugin !! key) /\
  (SampleSettingTab_onChange text plugin disk).2
  = Some (settings (SampleSettingTab_onChange text plugin disk).1) /\
  (settings plugin !! "__proto__" = None ->
   settings (loadSettings this' (SampleSettingTab_onChange text plugin disk).2)
   = settings (SampleSettingTab_onChange text plugin disk).1) /\
  SampleSettingTab_shown
    (loadSettings this' (SampleSettingTab_onChange text plugin disk).2)
  = Some (VString text) /\
  (forall texts,
     SampleSettingTab_edits (texts ++ [text]) plugin disk
     = SampleSettingTab_onChange text
         (SampleSettingTab_edits texts plugin disk).1
         (SampleSettingTab_edits texts plugin disk).2).
Proof.
  unfold SampleSettingTab_onChange, saveSettings, saveData,
    SampleSettingTab_shown.
  cbn [fst snd settings].
  assert (Hset : <["mySetting":=VString text]> (settings plugin)
                 !! "mySetting" = Some (VString text))
    by apply lookup_insert_eq.
  split; [exact Hset|]. split.
  { intros key Hkey. apply lookup_insert_ne. congruence. }
  split; [reflexivity|]. split.
  { intros Hproto. apply loadSettings_saved.
    - rewrite Hset. eauto.
    - now rewrite lookup_insert_ne by discriminate. }
  split.
  { rewrite loadSettings_lookup, decide_False by discriminate.
    now rewrite Hset. }
  intros texts. unfold SampleSettingTab_edits. now rewrite foldl_app.
Qed.

(** X20: after [loadSettings] the key "mySetting" is always present,
    whatever the data file holds, and the key "__proto__" never is; every
    other key is present exactly when the data file has it; the result
    does not depend on the settings the plugin held before; and saving
    what was loaded and loading again gives the same settings. *)
Theorem loadSettings_defaults (this this' : MyPlugin)
    (disk : option (gmap string value)) :
  is_Some (settings (loadSettings this disk) !! "mySetting") /\
  settings (loadSettings this disk) !! "__proto__" = None /\
  (forall key,
     key <> "mySetting" -> key <> "__proto__" ->
     settings (loadSettings this disk) !! key
     = match disk with
       | Some data => data !! key
       | None => None
       end) /\
  loadSettings this disk = loadSettings this' disk /\
  (forall disk',
     loadSettings this' (saveSettings (loadSettings this disk) disk')
     = loadSettings this disk).
Proof.
  assert (Hmy : is_Some (settings (loadSettings this disk) !! "mySetting")).
  { rewrite loadSettings_lookup, DEFAULT_SETTINGS_lookup.
    rewrite decide_False by discriminate.
    destruct disk as [data|]; [destruct (data !! "mySetting")|]; eauto. }
  assert (Hproto : settings (loadSettings this disk) !! "__proto__" = None).
  { rewrite loadSettings_lookup. now rewrite decide_True. }
  split; [exact Hmy|]. split; [exact Hproto|]. split; [|split].
  - intros key Hkey Hkey'.
    rewrite loadSettings_lookup, DEFAULT_SETTINGS_lookup.
    rewrite decide_False by exact Hkey'. rewrite decide_False by exact Hkey.
    destruct disk as [data|]; [now destruct (data !! key) | reflexivity].
  - reflexivity.
  - intros disk'. unfold saveSettings, saveData.
    destruct (loadSettings this disk) as [loaded] eqn:Hl.
    cbn [settings] in *. f_equal.
    assert (Hloaded : settings (loadSettings this' (Some loaded)) = loaded)
      by now apply loadSettings_saved.
    destruct (loadSettings this' (Some loaded)) as [again].
    cbn [settings] in Hloaded. congruence.
Qed.

(** ** The conditional command *)

(** X21: the check callback of open-sample-modal-complex never opens the
    modal while it is only checking, never answers [false], answers [true]
    exactly when a Markdown view is active, and its answer when checking
    tells whether running it opens the modal. *)
Theorem open_sample_modal_complex_check {View : Type}
    (markdownView : option View) (checking : bool) :
  (open_sample_modal_complex markdownView true).1 = false /\
  (open_sample_modal_complex markdownView checking).2 <> Some false /\
  ((open_sample_modal_complex markdownView checking).2 = Some true
   <-> is_Some markdownView) /\
  ((open_sample_modal_complex markdownView true).2 = Some true
   <-> (open_sample_modal_complex markdownView false).1 = true) /\
  ((open_sample_modal_complex markdownView checking).1 = true
   <-> is_Some markdownView /\ checking = false).
Proof.
  destruct markdownView as [view|], checking; cbn;
    repeat split; try discriminate; try reflexivity; eauto;
    try (intros [? ?]; discriminate);
    try (intros [[? ?] ?]; discriminate).
Qed.

(** ** From the user's actions to the folder *)

Lemma postTitlePromise_submitted (host : Host)
    (typed rest : list TitleEvent) :
  forallb isChange typed = true ->
  titleUser host = typed ++ Click :: rest ->
  postTitlePromise host = JS.Resolved (lastTyped typed).
Proof.
  intros Hty Hevs.
  unfold postTitlePromise, PostTitleModal_run, PostTitleModal_new, lastTyped.
  rewrite Hevs, foldl_app, (PostTitleModal_typing "" [] typed Hty).
  cbn [foldl]. unfold PostTitleModal_handle at 2. cbn [titleOpen name].
  now rewrite PostTitleModal_closed.
Qed.

Lemma postKindPromise_selected toLowerCase (host : Host)
    (inputs rest : list ChooserEvent) (index : nat) (postKind : string) :
  forallb isInput inputs = true ->
  chooserUser host = inputs ++ Select index :: rest ->
  getSuggestions toLowerCase (lastQuery inputs) !! index = Some postKind ->
  postKindPromise toLowerCase host = JS.Resolved postKind.
Proof.
  intros Hin Hevs Hi.
  unfold postKindPromise, PostKindChooserModal_run,
    PostKindChooserModal_new.
  rewrite Hevs, foldl_app,
    (PostKindChooserModal_typing toLowerCase "" [] inputs Hin).
  fold (lastQuery inputs). cbn [foldl].
  rewrite (PostKindChooserModal_select_shown toLowerCase
             (mkChooser (getSuggestions toLowerCase (lastQuery inputs))
                        true [])
             index postKind eq_refl Hi).
  now rewrite PostKindChooserModal_closed.
Qed.

(** X22: end to end, when the user types queries, selects the suggestion
    shown at an index, types into the title field and presses Submit, the
    command shows that suggestion and the last text typed in two notices
    and then asks the vault for the folder named from that suggestion, the
    clock and that text; it returns. *)
Theorem create_new_post_from_user_actions toLowerCase (host : Host)
    (inputs restChooser : list ChooserEvent) (index : nat)
    (postKind : string) (typed restTitle : list TitleEvent) :
  forallb isInput inputs = true ->
  chooserUser host = inputs ++ Select index :: restChooser ->
  getSuggestions toLowerCase (lastQuery inputs) !! index = Some postKind ->
  forallb isChange typed = true ->
  titleUser host = typed ++ Click :: restTitle ->
  exists rest,
    create_new_post toLowerCase host
    = ([ModalOpen KindChooser; NoticeShown postKind;
        ModalOpen TitlePrompt; NoticeShown (lastTyped typed);
        CreateFolder (folderName postKind (now host) (lastTyped typed))]
         ++ rest,
       Returned tt).
Proof.
  intros Hin Hch Hi Hty Hti.
  apply (run_resolved_returns toLowerCase host postKind (lastTyped typed)).
  - exact (postKindPromise_selected toLowerCase host inputs restChooser
             index postKind Hin Hch Hi).
  - exact (postTitlePromise_submitted host typed restTitle Hty Hti).
Qed.

(** ** The further properties on the sample inputs *)

Lemma formatDatePrefix_injective_witness :
  JS.isInstant date_2024_03_05_09_07 = true /\
  JS.isInstant date_2024_03_05_09_08 = true /\
  formatDatePrefix date_2024_03_05_09_07
  <> formatDatePrefix date_2024_03_05_09_08.
Proof.
  split; [reflexivity|]. split; [reflexivity|]. intros Heq.
  apply (formatDatePrefix_injective date_2024_03_05_09_07
           date_2024_03_05_09_08 eq_refl eq_refl) in Heq
    as (_ & _ & _ & _ & Hmi).
  discriminate Hmi.
Defined.

Lemma folderName_injective_witness :
  JS.isInstant date_2024_03_05_09_07 = true /\
  folderName "note" date_2024_03_05_09_07 "hello"
  <> folderName "blogpost" date_2024_03_05_09_07 "hello" /\
  folderName "blogpost" date_2024_03_05_09_07 "hello"
  = folderName "photos" date_2024_03_05_09_07 "hello".
Proof.
  split; [reflexivity|].
  destruct (folderName_injective "note" "blogpost" "hello" "hello"
              date_2024_03_05_09_07 date_2024_03_05_09_07
              eq_refl eq_refl) as [Hiff Hsame].
  split; [|exact Hsame].
  intros Heq. apply Hiff in Heq as [Hk _]. discriminate Hk.
Defined.

Lemma formatDatePrefix_length_witness :
  JS.isInstant date_2024_03_05_09_07 = true /\
  hasFourDigitYear date_2024_03_05_09_07 = true /\
  String.length (formatDatePrefix date_2024_03_05_09_07) = 16.
Proof.
  split; [reflexivity|]. split; [reflexivity|].
  apply (formatDatePrefix_length date_2024_03_05_09_07 eq_refl).
  reflexivity.
Defined.

Lemma formatDatePrefix_sortable_witness :
  String.compare (formatDatePrefix date_2024_03_05_09_07)
                 (formatDatePrefix date_2024_03_05_09_08)
  = Lt /\
  String.compare (folderName "blogpost" date_2024_03_05_09_07 "b")
                 (folderName "photos" date_2024_03_05_09_07 "a")
  = Gt /\
  String.compare (folderName "note" date_2024_03_05_09_07 "hello")
                 (folderName "blogpost" date_2024_03_05_09_08 "hello")
  = Gt.
Proof.
  destruct (formatDatePrefix_sortable date_2024_03_05_09_07
              date_2024_03_05_09_08 eq_refl eq_refl eq_refl eq_refl)
    as (Hprefix & _ & Hnote).
  destruct (formatDatePrefix_sortable date_2024_03_05_09_07
              date_2024_03_05_09_07 eq_refl eq_refl eq_refl eq_refl)
    as (_ & Hsame & _).
  split; [exact Hprefix|]. split.
  - exact (Hsame "blogpost" "photos" "b" "a" eq_refl).
  - exact (Hnote "note" "blogpost" "hello" "hello" eq_refl eq_refl).
Defined.

Lemma pad_only_prepends_zeros_witness :
  2 <= String.length (JS.toString (JS.Int (-5))) /\
  pad (JS.Int (-5)) = "-5".
Proof.
  assert (Hlen : 2 <= String.length (JS.toString (JS.Int (-5))))
    by (vm_compute; lia).
  split; [exact Hlen|].
  destruct (pad_only_prepends_zeros (JS.Int (-5))) as (_ & _ & Hkeep).
  apply Hkeep. exact Hlen.
Defined.

Lemma folderName_segments_witness :
  countChar "/"%char "hello" = 0 /\
  pathSegments (folderName "note" date_2024_03_05_09_07 "hello")
  = ["content"; "posts"; "note-2024-03-05-09-07-hello"].
Proof.
  split; [reflexivity|].
  destruct (folderName_segments "note" "hello" date_2024_03_05_09_07)
    as [_ Hthree].
  apply Hthree. reflexivity.
Defined.

Lemma create_new_post_outcome_witness :
  postKindPromise lowerAsciiString host_ok = JS.Resolved "note" /\
  postTitlePromise host_ok = JS.Resolved "hello" /\
  (create_new_post lowerAsciiString host_ok).2 = Returned tt.
Proof.
  split; [reflexivity|]. split; [reflexivity|].
  destruct (create_new_post_outcome lowerAsciiString host_ok)
    as (_ & Hret & _).
  apply Hret. exists "note", "hello". split; reflexivity.
Defined.

Lemma create_new_post_requests_after_prompts_witness :
  postTitlePromise host_title_dismissed = JS.Pending /\
  List.filter isStorageOrNavigation
    (create_new_post lowerAsciiString host_title_dismissed).1
  = [].
Proof.
  split; [reflexivity|].
  destruct (create_new_post_requests_after_prompts lowerAsciiString
              host_title_dismissed) as [Hnone _].
  apply Hnone. right. reflexivity.
Defined.

Lemma create_new_post_file_failure_witness :
  create_new_post lowerAsciiString host_file_refused
  = ([ModalOpen KindChooser; NoticeShown "note";
      ModalOpen TitlePrompt; NoticeShown "hello";
      CreateFolder "content/posts/note-2024-03-05-09-07-hello";
      NoticeShown "content/posts/note-2024-03-05-09-07-hello";
      Create "content/posts/note-2024-03-05-09-07-hello/index.md" "";
      NoticeShown "Error: File already exists."],
     Returned tt).
Proof.
  apply (create_new_post_file_failure lowerAsciiString host_file_refused
           "note" "hello" "Error: File already exists."
           (mkFolder "content/posts/note-2024-03-05-09-07-hello"));
    reflexivity.
Defined.

Lemma create_new_post_open_failure_witness :
  create_new_post lowerAsciiString host_open_refused
  = ([ModalOpen KindChooser; NoticeShown "note";
      ModalOpen TitlePrompt; NoticeShown "hello";
      CreateFolder "content/posts/note-2024-03-05-09-07-hello";
      NoticeShown "content/posts/note-2024-03-05-09-07-hello";
      Create "content/posts/note-2024-03-05-09-07-hello/index.md" "";
      GetLeaf false;
      OpenFile (mkFile "content/posts/note-2024-03-05-09-07-hello/index.md");
      NoticeShown "Error: Cannot open file."],
     Returned tt).
Proof.
  apply (create_new_post_open_failure lowerAsciiString host_open_refused
           "note" "hello" "Error: Cannot open file."
           (mkFolder "content/posts/note-2024-03-05-09-07-hello")
           (mkFile "content/posts/note-2024-03-05-09-07-hello/index.md"));
    reflexivity.
Defined.

Lemma create_new_post_success_witness :
  List.filter isNotice (create_new_post lowerAsciiString host_ok).1
  = [NoticeShown "note"; NoticeShown "hello";
     NoticeShown "content/posts/note-2024-03-05-09-07-hello"].
Proof.
  apply (create_new_post_success lowerAsciiString host_ok "note" "hello"
           (mkFolder "content/posts/note-2024-03-05-09-07-hello")
           (mkFile "content/posts/note-2024-03-05-09-07-hello/index.md"));
    reflexivity.
Defined.

Lemma PostKindChooserModal_submits_a_kind_witness :
  postKindPromise lowerAsciiString host_ok = JS.Resolved "note" /\
  "note" ∈ ["blogpost"; "note"; "photos"].
Proof.
  split; [reflexivity|].
  destruct (PostKindChooserModal_submits_a_kind lowerAsciiString [])
    as [_ Hkind].
  apply (Hkind host_ok). reflexivity.
Defined.

Lemma PostKindChooserModal_selects_shown_witness :
  forallb isInput [Input "p"; Input "PH"] = true /\
  promise_of_calls
    (chooserSubmitted
       (PostKindChooserModal_run lowerAsciiString
          ([Input "p"; Input "PH"] ++ Select 0 :: [Select 0])))
  = JS.Resolved "photos".
Proof.
  split; [reflexivity|].
  pose proof (PostKindChooserModal_selects_shown lowerAsciiString
                [Input "p"; Input "PH"] [Select 0] 0 eq_refl) as Hsel.
  assert (Hshown : getSuggestions lowerAsciiString
                     (lastQuery [Input "p"; Input "PH"]) !! 0
                   = Some "photos") by reflexivity.
  rewrite Hshown in Hsel. exact (proj2 Hsel).
Defined.

Lemma create_new_post_chooser_dismissed_witness :
  create_new_post lowerAsciiString host_chooser_dismissed
  = ([ModalOpen KindChooser], Suspended).
Proof.
  apply (create_new_post_chooser_dismissed lowerAsciiString
           host_chooser_dismissed [Input "NO"] [Select 0]); reflexivity.
Defined.

Lemma create_new_post_title_dismissed_witness :
  create_new_post lowerAsciiString host_title_dismissed
  = ([ModalOpen KindChooser; NoticeShown "note"; ModalOpen TitlePrompt],
     Suspended).
Proof.
  apply (create_new_post_title_dismissed lowerAsciiString
           host_title_dismissed "note" [Change "hello"] [Click]);
    reflexivity.
Defined.

Lemma getSuggestions_empty_query_witness :
  lowerAsciiString "" = "" /\
  getSuggestions lowerAsciiString "" = ["blogpost"; "note"; "photos"].
Proof.
  split; [reflexivity|].
  apply (getSuggestions_empty_query lowerAsciiString). reflexivity.
Defined.

Lemma getSuggestions_narrowing_witness :
  isSubstring (lowerAsciiString "O") (lowerAsciiString "NO") /\
  sublist (getSuggestions lowerAsciiString "NO")
          (getSuggestions lowerAsciiString "O").
Proof.
  assert (Hsub : isSubstring (lowerAsciiString "O") (lowerAsciiString "NO"))
    by (exists "n", ""; reflexivity).
  split; [exact Hsub|].
  apply (getSuggestions_narrowing lowerAsciiString "O" "NO" Hsub).
Defined.

Lemma SampleSettingTab_onChange_persists_witness :
  "other" <> "mySetting" /\
  settings
    (SampleSettingTab_onChange "secret"
       (mkPlugin {[ "other" := VNumber 1 ]}) None).1 !! "other"
  = Some (VNumber 1) /\
  settings (mkPlugin {[ "other" := VNumber 1 ]}) !! "__proto__" = None /\
  settings
    (loadSettings (mkPlugin ∅)
       (SampleSettingTab_onChange "secret"
          (mkPlugin {[ "other" := VNumber 1 ]}) None).2)
  = settings
      (SampleSettingTab_onChange "secret"
         (mkPlugin {[ "other" := VNumber 1 ]}) None).1.
Proof.
  assert (Hne : "other" <> "mySetting") by discriminate.
  assert (Hproto : settings (mkPlugin {[ "other" := VNumber 1 ]})
                   !! "__proto__" = None) by reflexivity.
  destruct (SampleSettingTab_onChange_persists "secret"
              (mkPlugin {[ "other" := VNumber 1 ]}) (mkPlugin ∅) None)
    as (_ & Hother & _ & Hreload & _).
  split; [exact Hne|]. split.
  - rewrite (Hother "other" Hne). reflexivity.
  - split; [exact Hproto | exact (Hreload Hproto)].
Defined.

Lemma loadSettings_defaults_witness :
  "other" <> "mySetting" /\
  "other" <> "__proto__" /\
  settings (loadSettings (mkPlugin ∅) (Some {[ "other" := VNumber 1 ]}))
  !! "other" = Some (VNumber 1).
Proof.
  assert (Hne : "other" <> "mySetting") by discriminate.
  assert (Hne' : "other" <> "__proto__") by discriminate.
  split; [exact Hne|]. split; [exact Hne'|].
  destruct (loadSettings_defaults (mkPlugin ∅) (mkPlugin ∅)
              (Some {[ "other" := VNumber 1 ]})) as (_ & _ & Hother & _).
  rewrite (Hother "other" Hne Hne'). reflexivity.
Defined.

Lemma open_sample_modal_complex_check_witness :
  is_Some (Some tt) /\
  (open_sample_modal_complex (Some tt) false).1 = true.
Proof.
  assert (Hview : is_Some (Some tt)) by (exists tt; reflexivity).
  split; [exact Hview|].
  destruct (open_sample_modal_complex_check (Some tt) false)
    as (_ & _ & _ & _ & Hopen).
  apply Hopen. split; [exact Hview | reflexivity].
Defined.

Lemma create_new_post_from_user_actions_witness :
  exists rest,
    create_new_post lowerAsciiString host_ok
    = ([ModalOpen KindChooser; NoticeShown "note";
        ModalOpen TitlePrompt; NoticeShown "hello";
        CreateFolder "content/posts/note-2024-03-05-09-07-hello"] ++ rest,
       Returned tt).
Proof.
  apply (create_new_post_from_user_actions lowerAsciiString host_ok
           [Input "NO"] [] 0 "note" [Change "h"; Change "hello"] []);
    reflexivity.
Defined.
